(** * Appointment booking core of the medical-consultation backend

  A shallow embedding of the appointment routes (POST /, GET /:id,
  PUT /:id/status, DELETE /:id), of the [transaction] helper of
  config/database.js and of the role middleware of middleware/auth.js,
  together with the properties of the booking and slot-allocation core.

  Conventions of the embedding:
  - a table is the list of its rows, in insertion order; a SERIAL
    primary key is drawn from a counter kept next to the tables;
  - a JavaScript [Date] is its number of milliseconds since the epoch,
    a DATE column is a day number, a TIME column a minute of the day;
  - a handler is a function from the database to a response and the
    database it leaves behind; a thrown [Error] is its message;
  - the text of notifications (title, message) is not kept, their
    recipient, type and related appointment are. *)

From Stdlib Require Import ZArith List String Ascii Bool Lia Sorted.
Import ListNotations.

Local Open Scope string_scope.
Local Open Scope list_scope.
Local Open Scope Z_scope.

(** ** The schema *)

Module Schema.

(** appointments.status: 'scheduled', 'confirmed', 'completed',
    'cancelled', 'no_show'. *)
Inductive Status : Type :=
| scheduled
| confirmed
| completed
| cancelled
| no_show.

Definition Status_eqb (a b : Status) : bool :=
  match a, b with
  | scheduled, scheduled | confirmed, confirmed | completed, completed
  | cancelled, cancelled | no_show, no_show => true
  | _, _ => false
  end.

Record UserRow : Type := mkUser {
  u_id : Z;
  u_first_name : string;
  u_last_name : string;
  u_role : string;
  u_is_active : bool
}.

Record SpecialtyRow : Type := mkSpecialty {
  sp_id : Z;
  sp_name : string
}.

Record DoctorRow : Type := mkDoctor {
  d_id : Z;
  d_user_id : Z;
  d_specialty_id : Z;
  d_consultation_fee : Z;
  d_consultation_modes : list string;
  d_is_verified : bool;
  d_is_available : bool
}.

Record SlotRow : Type := mkSlot {
  s_id : Z;
  s_doctor_id : Z;
  slot_date : Z;
  slot_time : Z;
  is_booked : bool
}.

Record AppointmentRow : Type := mkAppointment {
  a_id : Z;
  patient_id : Z;
  doctor_id : Z;
  slot_id : Z;
  appointment_date : Z;
  appointment_time : Z;
  consultation_mode : string;
  status : Status;
  reason_for_visit : option string;
  notes : option string;
  prescription : option string;
  consultation_fee : Z
}.

Record NotificationRow : Type := mkNotification {
  n_id : Z;
  n_user_id : Z;
  n_type : string;
  related_appointment_id : Z
}.

Record Db : Type := mkDb {
  users : list UserRow;
  specialties : list SpecialtyRow;
  doctors : list DoctorRow;
  doctor_time_slots : list SlotRow;
  appointments : list AppointmentRow;
  notifications : list NotificationRow;
  appointments_id_seq : Z;
  notifications_id_seq : Z
}.

Definition set_booked (b : bool) (s : SlotRow) : SlotRow :=
  mkSlot (s_id s) (s_doctor_id s) (slot_date s) (slot_time s) b.

Definition set_status (st : Status) (a : AppointmentRow) : AppointmentRow :=
  mkAppointment (a_id a) (patient_id a) (doctor_id a) (slot_id a)
    (appointment_date a) (appointment_time a) (consultation_mode a) st
    (reason_for_visit a) (notes a) (prescription a) (consultation_fee a).

Definition set_notes (n : string) (a : AppointmentRow) : AppointmentRow :=
  mkAppointment (a_id a) (patient_id a) (doctor_id a) (slot_id a)
    (appointment_date a) (appointment_time a) (consultation_mode a) (status a)
    (reason_for_visit a) (Some n) (prescription a) (consultation_fee a).

Definition set_prescription (p : string) (a : AppointmentRow) : AppointmentRow :=
  mkAppointment (a_id a) (patient_id a) (doctor_id a) (slot_id a)
    (appointment_date a) (appointment_time a) (consultation_mode a) (status a)
    (reason_for_visit a) (notes a) (Some p) (consultation_fee a).

Definition with_slots (l : list SlotRow) (db : Db) : Db :=
  mkDb (users db) (specialties db) (doctors db) l (appointments db)
    (notifications db) (appointments_id_seq db) (notifications_id_seq db).

Definition with_appointments (l : list AppointmentRow) (db : Db) : Db :=
  mkDb (users db) (specialties db) (doctors db) (doctor_time_slots db) l
    (notifications db) (appointments_id_seq db) (notifications_id_seq db).

End Schema.
Export Schema.

(** ** config/database.js *)

Module Database.

(** What awaiting a query or a callback gives: a value, or a thrown
    [Error] with its message. *)
Inductive Outcome (A : Type) : Type :=
| Returned (a : A)
| Thrown (message : string).
Arguments Returned {A} a.
Arguments Thrown {A} message.

(** Code running against the database. *)
Definition Q (A : Type) : Type := Db -> Outcome A * Db.

Definition ret {A} (a : A) : Q A := fun db => (Returned a, db).

Definition throw {A} (message : string) : Q A := fun db => (Thrown message, db).

Definition bind {A B} (m : Q A) (k : A -> Q B) : Q B :=
  fun db =>
    match m db with
    | (Returned a, db') => k a db'
    | (Thrown e, db') => (Thrown e, db')
    end.

(** [transaction]: BEGIN, the callback, COMMIT; a throw inside the
    callback is answered by ROLLBACK and thrown again. *)
Definition transaction {A} (callback : Q A) : Q A :=
  fun db =>
    match callback db with
    | (Returned result, db') => (Returned result, db')
    | (Thrown error, _) => (Thrown error, db)
    end.

End Database.
Export Database.

Notation "x <- m ;; k" := (bind m (fun x => k))
(at level 61, m at next level, right associativity).
Notation "m ;;; k" := (bind m (fun _ => k))
(at level 61, right associativity).

(** ** JavaScript and SQL values *)

Module Js.

(** [s.includes(sub)] *)
Fixpoint includes (s sub : string) : bool :=
  String.prefix sub s ||
  match s with
  | EmptyString => false
  | String _ s' => includes s' sub
  end.

(** [array.includes(x)] on an array of strings *)
Definition array_includes (l : list string) (x : string) : bool :=
  existsb (String.eqb x) l.

Definition in_range (lo hi c : ascii) : bool :=
  (N.leb (N_of_ascii lo) (N_of_ascii c) && N.leb (N_of_ascii c) (N_of_ascii hi))%bool.

Definition digit (c : ascii) : Z := Z.of_N (N_of_ascii c) - 48.

(** The regular expression /^([0-1]?[0-9]|2[0-3]):[0-5][0-9]$/ *)
Definition time_pattern (s : string) : bool :=
  match s with
  | String h (String ":" (String m1 (String m2 EmptyString))) =>
      in_range "0" "9" h && in_range "0" "5" m1 && in_range "0" "9" m2
  | String h1 (String h2 (String ":" (String m1 (String m2 EmptyString)))) =>
      ((in_range "0" "1" h1 && in_range "0" "9" h2)
       || (Ascii.eqb h1 "2" && in_range "0" "3" h2))
      && in_range "0" "5" m1 && in_range "0" "9" m2
  | _ => false
  end.

(** The cast of 'H:MM' or 'HH:MM' to TIME, as a minute of the day. *)
Definition time_of_string (s : string) : Z :=
  match s with
  | String h (String ":" (String m1 (String m2 EmptyString))) =>
      digit h * 60 + digit m1 * 10 + digit m2
  | String h1 (String h2 (String ":" (String m1 (String m2 EmptyString)))) =>
      (digit h1 * 10 + digit h2) * 60 + digit m1 * 10 + digit m2
  | _ => 0
  end.

Definition ms_per_minute : Z := 60000.
Definition ms_per_day : Z := 86400000.

(** The cast of a [Date] parameter to DATE (server and session in UTC). *)
Definition date_of_instant (t : Z) : Z := t / ms_per_day.

(** The instant at which a DATE and a TIME lie. *)
Definition instant_of (date time : Z) : Z :=
  date * ms_per_day + time * ms_per_minute.

End Js.
Export Js.

(** ** Requests and responses *)

Module Http.

(** [req.user], attached by [authenticateToken]. *)
Record ReqUser : Type := mkReqUser {
  id : Z;
  firstName : string;
  lastName : string;
  role : string;
  isActive : bool
}.

(** [req.doctor], attached by [requireDoctor] and by nothing else. *)
Record ReqDoctor : Type := mkReqDoctor {
  rd_id : Z;
  isAvailable : bool;
  isVerified : bool
}.

Record Request : Type := mkRequest {
  user : option ReqUser;
  doctor : option ReqDoctor
}.

(** The request as [authenticateToken] hands it on. *)
Definition authenticated (u : ReqUser) : Request := mkRequest (Some u) None.

(** What [res] was told to send.
    - [Json code data]: [res.status(code).json({ message, data })];
    - [ValidationError key]: status 400, error 'Validation Error', the
      message Joi gives for the first key that fails;
    - [ErrorJson code error message]: [res.status(code).json({ error, message })]. *)
Inductive Response (D : Type) : Type :=
| Json (code : Z) (data : D)
| ValidationError (key : string)
| ErrorJson (code : Z) (error message : string).
Arguments Json {D} code data.
Arguments ValidationError {D} key.
Arguments ErrorJson {D} code error message.

Definition Handler (D : Type) : Type := Db -> Response D * Db.

Definition succeeded {D} (r : Response D) : bool :=
  match r with
  | Json _ _ => true
  | _ => false
  end.

End Http.
Export Http.

(** ** middleware/auth.js *)

Module Auth.

(** [requirePatient] *)
Definition requirePatient {D} (req : Request) (next : Request -> Handler D) : Handler D :=
  fun db =>
    match user req with
    | Some u =>
        if negb (role u =? "patient")%string
        then (ErrorJson 403 "Forbidden" "Patient access required", db)
        else next req db
    | None => (ErrorJson 403 "Forbidden" "Patient access required", db)
    end.

(** [requireDoctor]: the doctor profile of the user is looked up and
    attached to the request. *)
Definition requireDoctor {D} (req : Request) (next : Request -> Handler D) : Handler D :=
  fun db =>
    match user req with
    | Some u =>
        if negb (role u =? "doctor")%string
        then (ErrorJson 403 "Forbidden" "Doctor access required", db)
        else
          match filter (fun d => d_user_id d =? id u) (doctors db) with
          | [] => (ErrorJson 404 "Not Found" "Doctor profile not found", db)
          | doctor :: _ =>
              if negb (d_is_available doctor)
              then (ErrorJson 403 "Forbidden" "Doctor profile is not available", db)
              else
                next (mkRequest (user req)
                        (Some (mkReqDoctor (d_id doctor) (d_is_available doctor)
                                 (d_is_verified doctor)))) db
          end
    | None => (ErrorJson 403 "Forbidden" "Doctor access required", db)
    end.

End Auth.
Export Auth.

(** ** The appointment routes *)

Module Appointments.

(** *** The statements the handlers send *)

(** A SELECT: its rows, the database as it was. *)
Definition select {A} (rows : Db -> list A) : Q (list A) :=
  fun db => (Returned (rows db), db).

(** SELECT d.*, u.first_name, u.last_name, u.email
    FROM doctors d JOIN users u ON d.user_id = u.id
    WHERE d.id = $1 AND d.is_available = true AND u.is_active = true *)
Definition bookable_doctors (doctorId : Z) (db : Db) : list (DoctorRow * UserRow) :=
  flat_map
    (fun d =>
       map (pair d)
         (filter
            (fun u => (d_user_id d =? u_id u) && (d_id d =? doctorId)
                      && d_is_available d && u_is_active u)
            (users db)))
    (doctors db).

(** SELECT id FROM doctor_time_slots
    WHERE doctor_id = $1 AND slot_date = $2 AND slot_time = $3 AND is_booked = false *)
Definition free_slots (doctorId date time : Z) (db : Db) : list Z :=
  map s_id
    (filter
       (fun s => (s_doctor_id s =? doctorId) && (slot_date s =? date)
                 && (slot_time s =? time) && negb (is_booked s))
       (doctor_time_slots db)).

(** SELECT a.*, d.user_id as doctor_user_id
    FROM appointments a JOIN doctors d ON a.doctor_id = d.id WHERE a.id = $1 *)
Definition appointments_with_doctor (appointmentId : Z) (db : Db)
    : list (AppointmentRow * Z) :=
  flat_map
    (fun a =>
       map (fun d => (a, d_user_id d))
         (filter (fun d => (doctor_id a =? d_id d) && (a_id a =? appointmentId))
            (doctors db)))
    (appointments db).

(** SELECT a.*, ... FROM appointments a
    JOIN users u_patient ON a.patient_id = u_patient.id
    JOIN doctors d ON a.doctor_id = d.id
    JOIN users u_doctor ON d.user_id = u_doctor.id
    JOIN specialties s ON d.specialty_id = s.id
    WHERE a.id = $1 *)
Definition appointment_details (appointmentId : Z) (db : Db) : list AppointmentRow :=
  flat_map
    (fun a =>
       flat_map
         (fun u_patient =>
            flat_map
              (fun d =>
                 flat_map
                   (fun u_doctor =>
                      map (fun _ => a)
                        (filter
                           (fun s =>
                              (patient_id a =? u_id u_patient)
                              && (doctor_id a =? d_id d)
                              && (d_user_id d =? u_id u_doctor)
                              && (d_specialty_id d =? sp_id s)
                              && (a_id a =? appointmentId))
                           (specialties db)))
                   (users db))
              (doctors db))
         (users db))
    (appointments db).

(** INSERT INTO appointments (patient_id, doctor_id, slot_id, appointment_date,
      appointment_time, consultation_mode, reason_for_visit, consultation_fee, status)
    VALUES ($1, ..., $8, 'scheduled') RETURNING * *)
Definition insert_appointment (patient doctorId slotId date time : Z) (mode : string)
    (reason : option string) (fee : Z) : Q AppointmentRow :=
  fun db =>
    let row :=
      mkAppointment (appointments_id_seq db) patient doctorId slotId date time mode
        scheduled reason None None fee in
    (Returned row,
     mkDb (users db) (specialties db) (doctors db) (doctor_time_slots db)
       (appointments db ++ [row]) (notifications db)
       (appointments_id_seq db + 1) (notifications_id_seq db)).

(** UPDATE doctor_time_slots SET is_booked = $b WHERE id = $1 *)
Definition update_slot_booked (b : bool) (slotId : Z) : Q unit :=
  fun db =>
    (Returned tt,
     with_slots
       (map (fun s => if s_id s =? slotId then set_booked b s else s)
          (doctor_time_slots db))
       db).

(** INSERT INTO notifications (user_id, type, title, message, related_appointment_id)
    VALUES ($1, type, ..., $2), one row. *)
Definition insert_notification (userId : Z) (type : string) (appointmentId : Z) : Q unit :=
  fun db =>
    (Returned tt,
     mkDb (users db) (specialties db) (doctors db) (doctor_time_slots db)
       (appointments db)
       (notifications db
        ++ [mkNotification (notifications_id_seq db) userId type appointmentId])
       (appointments_id_seq db) (notifications_id_seq db + 1)).

(** The row an UPDATE of the status, and of the notes and the prescription
    when they are given, makes of a row. *)
Definition updated_row (st : Status) (newNotes newPrescription : option string)
    (a : AppointmentRow) : AppointmentRow :=
  let a1 := set_status st a in
  let a2 := match newNotes with Some n => set_notes n a1 | None => a1 end in
  match newPrescription with Some p => set_prescription p a2 | None => a2 end.

(** UPDATE appointments SET status = $2 [, notes = $3] [, prescription = $4]
    WHERE id = $1 RETURNING * *)
Definition update_appointment (appointmentId : Z) (st : Status)
    (newNotes newPrescription : option string) : Q (list AppointmentRow) :=
  fun db =>
    (Returned
       (map (updated_row st newNotes newPrescription)
          (filter (fun a => a_id a =? appointmentId) (appointments db))),
     with_appointments
       (map (fun a => if a_id a =? appointmentId
                      then updated_row st newNotes newPrescription a else a)
          (appointments db))
       db).

(** UPDATE appointments SET status = 'cancelled' WHERE id = $1 *)
Definition update_appointment_cancelled (appointmentId : Z) : Q unit :=
  fun db =>
    (Returned tt,
     with_appointments
       (map (fun a => if a_id a =? appointmentId then set_status cancelled a else a)
          (appointments db))
       db).

(** INSERT INTO notifications ... VALUES (...), (...): the rows of one statement. *)
Fixpoint insert_notifications (rows : list (Z * string * Z)) : Q unit :=
  match rows with
  | [] => ret tt
  | (userId, type, appointmentId) :: rest =>
      insert_notification userId type appointmentId ;;; insert_notifications rest
  end.

(** *** POST /: book an appointment (patients only) *)

Record BookBody : Type := mkBookBody {
  doctorId : Z;
  appointmentDate : Z;
  appointmentTime : string;
  consultationMode : string;
  reasonForVisit : option string
}.

Definition is_empty (s : string) : bool :=
  match s with
  | EmptyString => true
  | String _ _ => false
  end.

(** [Joi.string().max(n).optional()]: absent, or a non-empty string of at
    most [n] characters. *)
Definition optional_string_max (n : Z) (v : option string) : bool :=
  match v with
  | None => true
  | Some s => negb (is_empty s) && (Z.of_nat (String.length s) <=? n)
  end.

(** The Joi schema of the booking body, checked key after key; the result
    is the first key that fails. [now] is the server time. *)
Definition validate_booking (now : Z) (b : BookBody) : option string :=
  if negb (0 <? doctorId b) then Some "doctorId"
  else if negb (now <=? appointmentDate b) then Some "appointmentDate"
  else if negb (time_pattern (appointmentTime b)) then Some "appointmentTime"
  else if negb (array_includes ["ONLINE"; "OFFLINE"] (consultationMode b))
       then Some "consultationMode"
  else if negb (optional_string_max 500 (reasonForVisit b)) then Some "reasonForVisit"
  else None.

(** The first half of the transaction callback: the two SELECTs and the
    checks made on them. *)
Definition book_checks (value : BookBody) : Q (DoctorRow * Z) :=
  doctorResult <- select (bookable_doctors (doctorId value)) ;;
  match doctorResult with
  | [] => throw "Doctor not found or not available"
  | (doctor, _) :: _ =>
      if negb (array_includes (d_consultation_modes doctor) (consultationMode value))
      then throw ("Doctor does not support " ++ consultationMode value ++ " consultations")
      else
        slotResult <- select (free_slots (doctorId value)
                                (date_of_instant (appointmentDate value))
                                (time_of_string (appointmentTime value))) ;;
        match slotResult with
        | [] => throw "Selected time slot is not available"
        | slotId :: _ => ret (doctor, slotId)
        end
  end.

(** The second half: the INSERT of the appointment, the UPDATE of the slot
    and the INSERT of the two notifications. *)
Definition book_writes (u : ReqUser) (value : BookBody) (found : DoctorRow * Z)
    : Q AppointmentRow :=
  let (doctor, slotId) := found in
  appointment <- insert_appointment (id u) (doctorId value) slotId
                   (date_of_instant (appointmentDate value))
                   (time_of_string (appointmentTime value))
                   (consultationMode value) (reasonForVisit value)
                   (d_consultation_fee doctor) ;;
  update_slot_booked true slotId ;;;
  insert_notifications
    [(id u, "confirmation", a_id appointment);
     (d_user_id doctor, "new_appointment", a_id appointment)] ;;;
  ret appointment.

Definition book_callback (u : ReqUser) (value : BookBody) : Q AppointmentRow :=
  found <- book_checks value ;;
  book_writes u value found.

Definition book_catch (db : Db) (message : string) : Response AppointmentRow * Db :=
  if includes message "not found" || includes message "not available"
     || includes message "not support"
  then (ErrorJson 400 "Bad Request" message, db)
  else (ErrorJson 500 "Internal Server Error" "Failed to book appointment", db).

Definition book_handler (now : Z) (body : BookBody) (req : Request)
    : Handler AppointmentRow :=
  fun db =>
    match validate_booking now body with
    | Some key => (ValidationError key, db)
    | None =>
        match user req with
        | None => (ErrorJson 500 "Internal Server Error" "Failed to book appointment", db)
        | Some u =>
            match transaction (book_callback u body) db with
            | (Returned appointment, db') => (Json 201 appointment, db')
            | (Thrown message, db') => book_catch db' message
            end
        end
    end.

(** router.post('/', authenticateToken, requirePatient, ...) *)
Definition bookAppointment (now : Z) (u : ReqUser) (body : BookBody)
    : Handler AppointmentRow :=
  requirePatient (authenticated u) (book_handler now body).

(** *** GET /:id: one appointment *)

Definition hasAccess (req : Request) (u : ReqUser) (appointment : AppointmentRow) : bool :=
  ((role u =? "patient")%string && (patient_id appointment =? id u))
  || ((role u =? "doctor")%string
      && match doctor req with
         | Some rd => doctor_id appointment =? rd_id rd
         | None => false
         end)
  || (role u =? "admin")%string.

Definition get_handler (appointmentId : Z) (req : Request) : Handler AppointmentRow :=
  fun db =>
    match select (appointment_details appointmentId) db with
    | (Returned [], db') => (ErrorJson 404 "Not Found" "Appointment not found", db')
    | (Returned (appointment :: _), db') =>
        match user req with
        | None =>
            (ErrorJson 500 "Internal Server Error" "Failed to fetch appointment details", db')
        | Some u =>
            if negb (hasAccess req u appointment)
            then (ErrorJson 403 "Forbidden"
                    "You do not have permission to view this appointment", db')
            else (Json 200 appointment, db')
        end
    | (Thrown _, db') =>
        (ErrorJson 500 "Internal Server Error" "Failed to fetch appointment details", db')
    end.

(** router.get('/:id', authenticateToken, ...) *)
Definition getAppointment (u : ReqUser) (appointmentId : Z) : Handler AppointmentRow :=
  get_handler appointmentId (authenticated u).

(** *** PUT /:id/status: update the status (doctors only) *)

Record StatusBody : Type := mkStatusBody {
  new_status : Status;
  new_notes : option string;
  new_prescription : option string
}.

(** status: valid('confirmed', 'completed', 'cancelled', 'no_show') *)
Definition validate_status (b : StatusBody) : option string :=
  if Status_eqb (new_status b) scheduled then Some "status"
  else if negb (optional_string_max 1000 (new_notes b)) then Some "notes"
  else if negb (optional_string_max 1000 (new_prescription b)) then Some "prescription"
  else None.

(** [if (value.notes)]: a string that is there and not empty. *)
Definition truthy (v : option string) : option string :=
  match v with
  | Some s => if is_empty s then None else Some s
  | None => None
  end.

Definition status_queries (u : ReqUser) (appointmentId : Z) (value : StatusBody)
    : Q (Response (option AppointmentRow)) :=
  appointmentResult <- select (appointments_with_doctor appointmentId) ;;
  match appointmentResult with
  | [] => ret (ErrorJson 404 "Not Found" "Appointment not found")
  | (appointment, doctor_user_id) :: _ =>
      if negb (doctor_user_id =? id u)
      then ret (ErrorJson 403 "Forbidden" "You can only update your own appointments")
      else
        result <- update_appointment appointmentId (new_status value)
                    (truthy (new_notes value)) (truthy (new_prescription value)) ;;
        insert_notification (patient_id appointment) "status_update" appointmentId ;;;
        ret (Json 200 (hd_error result))
  end.

Definition status_handler (appointmentId : Z) (body : StatusBody) (req : Request)
    : Handler (option AppointmentRow) :=
  fun db =>
    match validate_status body with
    | Some key => (ValidationError key, db)
    | None =>
        match user req with
        | None =>
            (ErrorJson 500 "Internal Server Error" "Failed to update appointment status", db)
        | Some u =>
            match status_queries u appointmentId body db with
            | (Returned response, db') => (response, db')
            | (Thrown _, db') =>
                (ErrorJson 500 "Internal Server Error"
                   "Failed to update appointment status", db')
            end
        end
    end.

(** router.put('/:id/status', authenticateToken, requireDoctor, ...) *)
Definition updateStatus (u : ReqUser) (appointmentId : Z) (body : StatusBody)
    : Handler (option AppointmentRow) :=
  requireDoctor (authenticated u) (status_handler appointmentId body).

(** *** DELETE /:id: cancel an appointment *)

Definition canCancel (u : ReqUser) (appointment : AppointmentRow) (doctor_user_id : Z)
    : bool :=
  ((role u =? "patient")%string && (patient_id appointment =? id u))
  || ((role u =? "doctor")%string && (doctor_user_id =? id u))
  || (role u =? "admin")%string.

(** ['scheduled', 'confirmed'].includes(appointment.status) *)
Definition cancellable (st : Status) : bool :=
  existsb (Status_eqb st) [scheduled; confirmed].

Definition cancel_callback (u : ReqUser) (appointmentId : Z) : Q unit :=
  appointmentResult <- select (appointments_with_doctor appointmentId) ;;
  match appointmentResult with
  | [] => throw "Appointment not found"
  | (appointment, doctor_user_id) :: _ =>
      if negb (canCancel u appointment doctor_user_id)
      then throw "You do not have permission to cancel this appointment"
      else if negb (cancellable (status appointment))
      then throw "Cannot cancel appointment with current status"
      else
        update_appointment_cancelled appointmentId ;;;
        update_slot_booked false (slot_id appointment) ;;;
        if (role u =? "patient")%string
        then insert_notification doctor_user_id "cancellation" appointmentId
        else insert_notification (patient_id appointment) "cancellation" appointmentId
  end.

Definition cancel_catch (db : Db) (message : string) : Response unit * Db :=
  if includes message "not found" || includes message "permission"
     || includes message "Cannot cancel"
  then (ErrorJson 400 "Bad Request" message, db)
  else (ErrorJson 500 "Internal Server Error" "Failed to cancel appointment", db).

Definition cancel_handler (appointmentId : Z) (req : Request) : Handler unit :=
  fun db =>
    match user req with
    | None => (ErrorJson 500 "Internal Server Error" "Failed to cancel appointment", db)
    | Some u =>
        match transaction (cancel_callback u appointmentId) db with
        | (Returned _, db') => (Json 200 tt, db')
        | (Thrown message, db') => cancel_catch db' message
        end
    end.

(** router.delete('/:id', authenticateToken, ...) *)
Definition cancelAppointment (u : ReqUser) (appointmentId : Z) : Handler unit :=
  cancel_handler appointmentId (authenticated u).

End Appointments.
Export Appointments.

(** ** middleware/auth.js: tokens and roles *)

Module Tokens.

(** [s.split(' ')] *)
Fixpoint split_space (s : string) : list string :=
  match s with
  | EmptyString => [EmptyString]
  | String c rest =>
      if Ascii.eqb c " " then EmptyString :: split_space rest
      else
        match split_space rest with
        | [] => [String c EmptyString]
        | word :: words => String c word :: words
        end
  end.

(** [array.join(sep)] *)
Fixpoint join (sep : string) (l : list string) : string :=
  match l with
  | [] => EmptyString
  | [x] => x
  | x :: rest => x ++ sep ++ join sep rest
  end.

(** [authHeader && authHeader.split(' ')[1]], and whether it is truthy:
    [None] stands for every falsy value (no header, an empty header, no
    second part, an empty second part). *)
Definition bearer_token (authHeader : option string) : option string :=
  match authHeader with
  | None => None
  | Some header =>
      if is_empty header then None
      else
        match nth_error (split_space header) 1 with
        | Some token => if is_empty token then None else Some token
        | None => None
        end
  end.

(** What [jwt.verify(token, process.env.JWT_SECRET)] gives: the decoded
    payload, of which the code reads [id], or a thrown error, of which the
    code reads [name]. *)
Inductive Verified : Type :=
| Decoded (id : Z)
| VerifyError (name : string).

(** The user the request gets from a row of users. *)
Definition req_user_of (row : UserRow) : ReqUser :=
  mkReqUser (u_id row) (u_first_name row) (u_last_name row) (u_role row)
    (u_is_active row).

(** SELECT id, email, first_name, last_name, role, is_active FROM users
    WHERE id = $1 *)
Definition users_by_id (userId : Z) (db : Db) : list UserRow :=
  filter (fun u => u_id u =? userId) (users db).

Section Jwt.

(** [jwt.verify] with the secret of the process; the library is not part of
    the repository. *)
Variable verify : string -> Verified.

(** [authenticateToken] *)
Definition authenticateToken {D} (authHeader : option string)
    (next : Request -> Handler D) : Handler D :=
  fun db =>
    match bearer_token authHeader with
    | None => (ErrorJson 401 "Unauthorized" "Access token is required", db)
    | Some token =>
        match verify token with
        | Decoded userId =>
            match users_by_id userId db with
            | [] => (ErrorJson 401 "Unauthorized" "Invalid token - user not found", db)
            | row :: _ =>
                if negb (u_is_active row)
                then (ErrorJson 401 "Unauthorized" "Account has been deactivated", db)
                else next (mkRequest (Some (req_user_of row)) None) db
            end
        | VerifyError name =>
            if (name =? "TokenExpiredError")%string
            then (ErrorJson 401 "Unauthorized" "Token has expired", db)
            else if (name =? "JsonWebTokenError")%string
            then (ErrorJson 401 "Unauthorized" "Invalid token", db)
            else (ErrorJson 500 "Internal Server Error" "Token verification failed", db)
        end
    end.

(** [optionalAuth] *)
Definition optionalAuth {D} (authHeader : option string)
    (next : Request -> Handler D) : Handler D :=
  fun db =>
    match bearer_token authHeader with
    | None => next (mkRequest None None) db
    | Some token =>
        match verify token with
        | Decoded userId =>
            match users_by_id userId db with
            | row :: _ =>
                if u_is_active row
                then next (mkRequest (Some (req_user_of row)) None) db
                else next (mkRequest None None) db
            | [] => next (mkRequest None None) db
            end
        | VerifyError _ => next (mkRequest None None) db
        end
    end.

End Jwt.

(** [authorize(...allowedRoles)] *)
Definition authorize {D} (allowedRoles : list string) (req : Request)
    (next : Request -> Handler D) : Handler D :=
  fun db =>
    match user req with
    | None => (ErrorJson 401 "Unauthorized" "Authentication required", db)
    | Some u =>
        if negb (array_includes allowedRoles (role u))
        then (ErrorJson 403 "Forbidden"
                ("Access denied. Required roles: " ++ join ", " allowedRoles), db)
        else next req db
    end.

(** [requireAdmin] *)
Definition requireAdmin {D} (req : Request) (next : Request -> Handler D) : Handler D :=
  fun db =>
    match user req with
    | Some u =>
        if negb (role u =? "admin")%string
        then (ErrorJson 403 "Forbidden" "Admin access required", db)
        else next req db
    | None => (ErrorJson 403 "Forbidden" "Admin access required", db)
    end.

End Tokens.
Export Tokens.

(** ** GET /: the appointments of the user *)

Module Listing.

Record ListQuery : Type := mkListQuery {
  q_status : option Status;
  q_upcoming : option bool;
  q_page : option Z;
  q_limit : option Z
}.

(** The Joi schema of the query string: page is integer().min(1), limit is
    integer().min(1).max(50); the result is the first key that fails. *)
Definition validate_list (q : ListQuery) : option string :=
  if match q_page q with Some p => p <? 1 | None => false end then Some "page"
  else if match q_limit q with Some l => (l <? 1) || (50 <? l) | None => false end
       then Some "limit"
  else None.

(** [value.page] and [value.limit], with the defaults of the schema. *)
Definition value_page (q : ListQuery) : Z :=
  match q_page q with Some p => p | None => 1 end.

Definition value_limit (q : ListQuery) : Z :=
  match q_limit q with Some l => l | None => 10 end.

(** What is pushed on [whereConditions]. *)
Inductive Condition : Type :=
| PatientIs (userId : Z)
| DoctorUserIs (userId : Z)
| StatusIs (st : Status)
| FromToday.

(** A condition on a row of appointments joined with its doctor; [today] is
    CURRENT_DATE. *)
Definition holds (today : Z) (a : AppointmentRow) (d : DoctorRow) (c : Condition)
    : bool :=
  match c with
  | PatientIs userId => patient_id a =? userId
  | DoctorUserIs userId => d_user_id d =? userId
  | StatusIs st => Status_eqb (status a) st
  | FromToday => today <=? appointment_date a
  end.

Definition whereConditions (u : ReqUser) (q : ListQuery) : list Condition :=
  (if (role u =? "patient")%string then [PatientIs (id u)]
   else if (role u =? "doctor")%string then [DoctorUserIs (id u)]
   else [])
  ++ match q_status q with Some st => [StatusIs st] | None => [] end
  ++ match q_upcoming q with Some true => [FromToday] | _ => [] end.

(** FROM appointments a
    JOIN users u_patient ON a.patient_id = u_patient.id
    JOIN doctors d ON a.doctor_id = d.id
    JOIN users u_doctor ON d.user_id = u_doctor.id
    JOIN specialties s ON d.specialty_id = s.id
    WHERE the conditions *)
Definition matching (today : Z) (conditions : list Condition) (db : Db)
    : list AppointmentRow :=
  flat_map
    (fun a =>
       flat_map
         (fun u_patient =>
            flat_map
              (fun d =>
                 flat_map
                   (fun u_doctor =>
                      map (fun _ => a)
                        (filter
                           (fun s =>
                              (patient_id a =? u_id u_patient)
                              && (doctor_id a =? d_id d)
                              && (d_user_id d =? u_id u_doctor)
                              && (d_specialty_id d =? sp_id s)
                              && forallb (holds today a d) conditions)
                           (specialties db)))
                   (users db))
              (doctors db))
         (users db))
    (appointments db).

(** SELECT COUNT( * ) FROM appointments a JOIN doctors d ON a.doctor_id = d.id
    WHERE the conditions *)
Definition counted (today : Z) (conditions : list Condition) (db : Db) : Z :=
  Z.of_nat
    (List.length
       (flat_map
          (fun a =>
             filter
               (fun d => (doctor_id a =? d_id d) && forallb (holds today a d) conditions)
               (doctors db))
          (appointments db))).

(** ORDER BY a.appointment_date DESC, a.appointment_time DESC: [a] may come
    before [b]. *)
Definition not_before (a b : AppointmentRow) : bool :=
  (appointment_date b <? appointment_date a)
  || ((appointment_date b =? appointment_date a)
      && (appointment_time b <=? appointment_time a)).

Fixpoint insert_desc (a : AppointmentRow) (l : list AppointmentRow)
    : list AppointmentRow :=
  match l with
  | [] => [a]
  | b :: rest => if not_before a b then a :: l else b :: insert_desc a rest
  end.

(** The rows in that order (rows that agree on date and time in the order
    of the table, one of the orders the database may choose). *)
Definition order_desc (l : list AppointmentRow) : list AppointmentRow :=
  fold_right insert_desc [] l.

(** LIMIT $n OFFSET $m *)
Definition limit_offset {A} (limit offset : Z) (l : list A) : list A :=
  firstn (Z.to_nat limit) (skipn (Z.to_nat offset) l).

(** Both statements carry [WHERE ${whereConditions.join(' AND ')}]: without
    a condition the text reads WHERE ORDER BY ..., respectively WHERE and
    nothing, which the database refuses. *)
Definition where_query {A} (conditions : list Condition) (rows : Db -> A) : Q A :=
  match conditions with
  | [] => throw "syntax error in the WHERE clause"
  | _ :: _ => fun db => (Returned (rows db), db)
  end.

Record Pagination : Type := mkPagination {
  currentPage : Z;
  itemsPerPage : Z;
  totalItems : Z;
  totalPages : Z;
  hasNextPage : bool;
  hasPreviousPage : bool
}.

Record ListData : Type := mkListData {
  listed : list AppointmentRow;
  pagination : Pagination
}.

(** [Math.ceil(total / limit)] for a count and a limit of at least 1. *)
Definition ceil_div (total limit : Z) : Z := (total + limit - 1) / limit.

Definition list_queries (today : Z) (u : ReqUser) (value : ListQuery) : Q ListData :=
  let conditions := whereConditions u value in
  let offset := (value_page value - 1) * value_limit value in
  appointmentsResult <-
    where_query conditions
      (fun db => limit_offset (value_limit value) offset
                   (order_desc (matching today conditions db))) ;;
  total <- where_query conditions (counted today conditions) ;;
  let pages := ceil_div total (value_limit value) in
  ret (mkListData appointmentsResult
         (mkPagination (value_page value) (value_limit value) total pages
            (value_page value <? pages) (1 <? value_page value))).

Definition list_handler (today : Z) (query : ListQuery) (req : Request)
    : Handler ListData :=
  fun db =>
    match validate_list query with
    | Some key => (ValidationError key, db)
    | None =>
        match user req with
        | None => (ErrorJson 500 "Internal Server Error" "Failed to fetch appointments", db)
        | Some u =>
            match list_queries today u query db with
            | (Returned data, db') => (Json 200 data, db')
            | (Thrown _, db') =>
                (ErrorJson 500 "Internal Server Error" "Failed to fetch appointments", db')
            end
        end
    end.

(** router.get('/', authenticateToken, ...) *)
Definition listAppointments (today : Z) (u : ReqUser) (query : ListQuery)
    : Handler ListData :=
  list_handler today query (authenticated u).

End Listing.
Export Listing.

(** ** The error kinds of the specification, as the responses that carry them *)

Module Errors.

Definition ForbiddenPatientOnly {D} (r : Response D) : Prop :=
  r = ErrorJson 403 "Forbidden" "Patient access required".






End Errors.
Export Errors.

(** ** A small clinic, used for the concrete runs *)

Module Scenario.

Definition alice : ReqUser := mkReqUser 1 "Alice" "Martin" "patient" true.
Definition drx : ReqUser := mkReqUser 2 "Xavier" "Roux" "doctor" true.
Definition root : ReqUser := mkReqUser 3 "Root" "Admin" "admin" true.
Definition bob : ReqUser := mkReqUser 4 "Bob" "Petit" "patient" true.

(** Dr. X (doctor 10, account 2) offers ONLINE and OFFLINE for a fee of
    50.00. *)
Definition doctor10 : DoctorRow :=
  mkDoctor 10 2 1 5000 ["ONLINE"; "OFFLINE"] true true.

(** Two patients, Dr. X and an admin; Dr. X has one slot, free, on
    2024-06-01 (day 19875) at 09:00 (minute 540). *)
Definition clinic : Db :=
  mkDb
    [mkUser 1 "Alice" "Martin" "patient" true;
     mkUser 2 "Xavier" "Roux" "doctor" true;
     mkUser 3 "Root" "Admin" "admin" true;
     mkUser 4 "Bob" "Petit" "patient" true]
    [mkSpecialty 1 "Cardiologie"]
    [doctor10]
    [mkSlot 100 10 19875 540 false]
    [] [] 1 1.

(** 2024-05-31, noon. *)
Definition day_before : Z := 19874 * ms_per_day + 720 * ms_per_minute.

(** (X, 2024-06-01, 09:00, ONLINE) *)
Definition nine_online : BookBody :=
  mkBookBody 10 (19875 * ms_per_day) "09:00" "ONLINE" None.

(** The clinic after Alice has booked the slot: appointment 1. *)
Definition booked : Db := snd (bookAppointment day_before alice nine_online clinic).

(** The row of that appointment. *)
Definition appointment1 : AppointmentRow :=
  mkAppointment 1 1 10 100 19875 540 "ONLINE" scheduled None None None 5000.

(** 2024-06-01, noon. *)
Definition noon : Z := 19875 * ms_per_day + 720 * ms_per_minute.

(** appointmentDate 2024-06-01T23:00Z with appointmentTime 09:00. *)
Definition this_morning : BookBody :=
  mkBookBody 10 (19875 * ms_per_day + 1380 * ms_per_minute) "09:00" "ONLINE" None.

(** Appointment 1, marked completed by its doctor. *)
Definition done : Db :=
  snd (updateStatus drx 1 (mkStatusBody completed None None) booked).

End Scenario.
Export Scenario.

(** ** A ward with several appointments, used for the concrete runs *)

Module Ward.


Definition doctor11 : DoctorRow := mkDoctor 11 5 1 7000 ["OFFLINE"] true true.

(** Alice has appointments 1 and 4 with Dr. X and appointment 3, completed,
    with Dr. Y; Bob has appointment 2 with Dr. X. Carl (account 6) has been
    deactivated. *)
Definition ward : Db :=
  mkDb
    [mkUser 1 "Alice" "Martin" "patient" true;
     mkUser 2 "Xavier" "Roux" "doctor" true;
     mkUser 3 "Root" "Admin" "admin" true;
     mkUser 4 "Bob" "Petit" "patient" true;
     mkUser 5 "Yvonne" "Blanc" "doctor" true;
     mkUser 6 "Carl" "Noir" "patient" false]
    [mkSpecialty 1 "Cardiologie"]
    [doctor10; doctor11]
    [mkSlot 100 10 19875 540 true;
     mkSlot 101 10 19876 600 true;
     mkSlot 102 11 19870 480 true;
     mkSlot 103 10 19876 540 true;
     mkSlot 104 10 19877 540 false]
    [mkAppointment 1 1 10 100 19875 540 "ONLINE" scheduled None None None 5000;
     mkAppointment 2 4 10 101 19876 600 "OFFLINE" confirmed None None None 5000;
     mkAppointment 3 1 11 102 19870 480 "OFFLINE" completed None None None 7000;
     mkAppointment 4 1 10 103 19876 540 "ONLINE" scheduled None None None 5000]
    [] 5 1.

(** No filter, first page of the default size. *)
Definition everything : ListQuery := mkListQuery None None None None.

(** What Alice is shown for it. *)
Definition alice_page : ListData :=
  mkListData
    [mkAppointment 4 1 10 103 19876 540 "ONLINE" scheduled None None None 5000;
     mkAppointment 1 1 10 100 19875 540 "ONLINE" scheduled None None None 5000;
     mkAppointment 3 1 11 102 19870 480 "OFFLINE" completed None None None 7000]
    (mkPagination 1 10 3 1 false false).

(** A verifier for the concrete runs: the token is the account. *)
Definition toy_verify (token : string) : Verified :=
  if (token =? "alice")%string then Decoded 1
  else if (token =? "drx")%string then Decoded 2
  else if (token =? "carl")%string then Decoded 6
  else if (token =? "ghost")%string then Decoded 99
  else if (token =? "old")%string then VerifyError "TokenExpiredError"
  else VerifyError "JsonWebTokenError".

End Ward.
Export Ward.

(** ** Notions used by the properties *)

(** *** What the writes of a handler leave *)

(** The database the three writes of a booking leave. *)
Definition after_booking (u : ReqUser) (value : BookBody) (doctor : DoctorRow)
    (slotId : Z) (db : Db) : Db :=
  mkDb (users db) (specialties db) (doctors db)
    (map (fun s => if s_id s =? slotId then set_booked true s else s)
       (doctor_time_slots db))
    (appointments db
     ++ [mkAppointment (appointments_id_seq db) (id u) (doctorId value) slotId
           (date_of_instant (appointmentDate value))
           (time_of_string (appointmentTime value))
           (consultationMode value) scheduled (reasonForVisit value) None None
           (d_consultation_fee doctor)])
    (notifications db
     ++ [mkNotification (notifications_id_seq db) (id u) "confirmation"
           (appointments_id_seq db);
         mkNotification (notifications_id_seq db + 1) (d_user_id doctor)
           "new_appointment" (appointments_id_seq db)])
    (appointments_id_seq db + 1) (notifications_id_seq db + 1 + 1).

(** The database a status update leaves. *)
Definition after_status (appointmentId : Z) (value : StatusBody) (patient : Z) (db : Db)
    : Db :=
  mkDb (users db) (specialties db) (doctors db) (doctor_time_slots db)
    (map (fun a => if a_id a =? appointmentId
                   then updated_row (new_status value) (truthy (new_notes value))
                          (truthy (new_prescription value)) a
                   else a)
       (appointments db))
    (notifications db
     ++ [mkNotification (notifications_id_seq db) patient "status_update" appointmentId])
    (appointments_id_seq db) (notifications_id_seq db + 1).

(** The database a cancellation leaves. *)
Definition after_cancel (appointmentId slotId recipient : Z) (db : Db) : Db :=
  mkDb (users db) (specialties db) (doctors db)
    (map (fun s => if s_id s =? slotId then set_booked false s else s)
       (doctor_time_slots db))
    (map (fun a => if a_id a =? appointmentId then set_status cancelled a else a)
       (appointments db))
    (notifications db
     ++ [mkNotification (notifications_id_seq db) recipient "cancellation" appointmentId])
    (appointments_id_seq db) (notifications_id_seq db + 1).

(** Who is told of a cancellation. *)
Definition cancellation_recipient (u : ReqUser) (appointment : AppointmentRow)
    (doctor_user_id : Z) : Z :=
  if (role u =? "patient")%string then doctor_user_id else patient_id appointment.

(** *** Histories of calls *)

(** What may happen to the database: a call of one of the four routes, or
    the doctors table rewritten from outside this core (a fee changed, a
    doctor added). *)
Inductive Event : Type :=
| Book (now : Z) (u : ReqUser) (body : BookBody)
| Get (u : ReqUser) (appointmentId : Z)
| SetStatus (u : ReqUser) (appointmentId : Z) (body : StatusBody)
| Cancel (u : ReqUser) (appointmentId : Z)
| DoctorsRewritten (rows : list DoctorRow).

Definition step (db : Db) (e : Event) : Db :=
  match e with
  | Book now u body => snd (bookAppointment now u body db)
  | Get u appointmentId => snd (getAppointment u appointmentId db)
  | SetStatus u appointmentId body => snd (updateStatus u appointmentId body db)
  | Cancel u appointmentId => snd (cancelAppointment u appointmentId db)
  | DoctorsRewritten rows =>
      mkDb (users db) (specialties db) rows (doctor_time_slots db) (appointments db)
        (notifications db) (appointments_id_seq db) (notifications_id_seq db)
  end.

Definition run (events : list Event) (db : Db) : Db := fold_left step events db.

(** A history of bookings, reads and cancellations, with no status update. *)
Definition no_status_update (e : Event) : bool :=
  match e with
  | Book _ _ _ | Get _ _ | Cancel _ _ | DoctorsRewritten _ => true
  | SetStatus _ _ _ => false
  end.


(** *** Slots and appointments in agreement *)

Definition terminal (st : Status) : bool :=
  match st with
  | completed | cancelled | no_show => true
  | scheduled | confirmed => false
  end.

(** Status scheduled or confirmed. *)
Definition active (a : AppointmentRow) : bool := cancellable (status a).

Definition non_cancelled (a : AppointmentRow) : bool :=
  negb (Status_eqb (status a) cancelled).

(** The appointments that satisfy [p] and refer to the slot. *)
Definition referring (p : AppointmentRow -> bool) (slotId : Z) (db : Db)
    : list AppointmentRow :=
  filter (fun a => (slot_id a =? slotId) && p a) (appointments db).

(** The slot of every active appointment is booked; a booked slot has
    exactly one appointment that is not cancelled; a free slot has no active
    appointment. *)
Definition consistent (db : Db) : Prop :=
  (forall a, In a (appointments db) -> active a = true ->
             exists s, In s (doctor_time_slots db) /\ s_id s = slot_id a
                       /\ is_booked s = true)
  /\ (forall s, In s (doctor_time_slots db) -> is_booked s = true ->
                List.length (referring non_cancelled (s_id s) db) = 1%nat)
  /\ (forall s, In s (doctor_time_slots db) -> is_booked s = false ->
                referring active (s_id s) db = []).

(** The agreement in the form that the routes carry along: appointment ids
    are keys drawn from the sequence, the slot of an active appointment is
    booked, a booked slot has exactly one appointment that is not
    cancelled, and a free slot has none. *)
Definition coherent (db : Db) : Prop :=
  NoDup (map a_id (appointments db))
  /\ (forall a, In a (appointments db) -> a_id a < appointments_id_seq db)
  /\ (forall a, In a (appointments db) -> active a = true ->
                exists s, In s (doctor_time_slots db) /\ s_id s = slot_id a
                          /\ is_booked s = true)
  /\ (forall s, In s (doctor_time_slots db) -> is_booked s = true ->
                List.length (referring non_cancelled (s_id s) db) = 1%nat)
  /\ (forall s, In s (doctor_time_slots db) -> is_booked s = false ->
                referring non_cancelled (s_id s) db = []).

(** *** Several bookings of one slot *)

(** Requests handled one after the other, each to its end. *)
Fixpoint book_serially (now : Z) (requests : list (ReqUser * BookBody)) (db : Db)
    : list (Response AppointmentRow) * Db :=
  match requests with
  | [] => ([], db)
  | (u, body) :: rest =>
      let (r, db1) := bookAppointment now u body db in
      let (rs, db2) := book_serially now rest db1 in
      (r :: rs, db2)
  end.

(** Requests handled at once. Each handler runs on a pool client of its
    own, in a transaction of its own, and gives way at every [await]. In the
    schedule taken here every callback has awaited its two SELECTs, on the
    committed rows, before the first INSERT is sent; the callbacks then
    write and commit one after the other. [transaction] sends a plain
    BEGIN, so the database is taken at its default level, READ COMMITTED,
    at which an UPDATE of a row that another transaction has committed
    goes through. *)
Definition await_checks (requests : list (ReqUser * BookBody)) (db : Db)
    : list (ReqUser * BookBody * Outcome (DoctorRow * Z)) :=
  map (fun r => (fst r, snd r, fst (book_checks (snd r) db))) requests.

Fixpoint commit_writes (pending : list (ReqUser * BookBody * Outcome (DoctorRow * Z)))
    (db : Db) : list (Outcome AppointmentRow) * Db :=
  match pending with
  | [] => ([], db)
  | (u, body, Returned found) :: rest =>
      let (r, db1) := book_writes u body found db in
      let (rs, db2) := commit_writes rest db1 in
      (r :: rs, db2)
  | (_, _, Thrown message) :: rest =>
      let (rs, db2) := commit_writes rest db in
      (Thrown message :: rs, db2)
  end.

Definition book_at_once (requests : list (ReqUser * BookBody)) (db : Db)
    : list (Outcome AppointmentRow) * Db :=
  commit_writes (await_checks requests db) db.

(** The callback came to its end with a scheduled appointment. *)
Definition given_appointment (o : Outcome AppointmentRow) : Prop :=
  exists a, o = Returned a /\ status a = scheduled.


(** The doctor part of the checks goes through for the body. *)
Definition doctor_offers (body : BookBody) (db : Db) : Prop :=
  (exists d du, In (d, du) (bookable_doctors (doctorId body) db))
  /\ forall d, In d (doctors db) -> d_id d = doctorId body ->
       array_includes (d_consultation_modes d) (consultationMode body) = true.


Definition key_slots (body : BookBody) (db : Db) : list Z :=
  free_slots (doctorId body) (date_of_instant (appointmentDate body))
    (time_of_string (appointmentTime body)) db.

(** ORDER BY of GET /: [a] may stand before [b] on a page. *)
Definition in_order (a b : AppointmentRow) : Prop := not_before a b = true.

(** The key of a slot row: id, doctor, date, time. *)
Definition slot_key (s : SlotRow) : Z * Z * Z * Z :=
  (s_id s, s_doctor_id s, slot_date s, slot_time s).

(** Case analysis along the matches of a hypothesis, on the bits of a
    character and on the shape of a string. *)
Ltac crack H :=
  repeat (cbv beta iota zeta in H;
          match type of H with
          | context [match ?b with true => _ | false => _ end] => is_var b; destruct b
          | context [match ?c with Ascii _ _ _ _ _ _ _ _ => _ end] => is_var c; destruct c
          | context [match ?s with EmptyString => _ | String _ _ => _ end] =>
              is_var s; destruct s
          end;
          try discriminate H).

(** ** Properties *)

(** *** The time pattern and the casts *)

Example time_pattern_accepts :
  map time_pattern ["0:00"; "9:05"; "09:05"; "19:59"; "23:59"]
  = [true; true; true; true; true].
Proof. reflexivity. Qed.

Example time_pattern_rejects :
  map time_pattern ["24:00"; "9:60"; "123:00"; "9:5"; "0900"; "09:00 "; "a9:00"]
  = [false; false; false; false; false; false; false].
Proof. reflexivity. Qed.

Example time_of_string_minutes :
  map time_of_string ["0:00"; "9:05"; "09:05"; "23:59"] = [0; 545; 545; 1439].
Proof. reflexivity. Qed.

Example includes_examples :
  includes "Selected time slot is not available" "not available" = true
  /\ includes "Appointment not found" "permission" = false.
Proof. split; reflexivity. Qed.

(** *** Lists and queries *)

Lemma filter_nil_forall {A} (p : A -> bool) (l : list A) :
  (forall x, In x l -> p x = false) -> filter p l = [].
Proof.
  induction l as [|x l IH]; intros H; simpl; [reflexivity|].
  rewrite (H x (or_introl eq_refl)). apply IH. intros y Hy. apply H. now right.
Qed.

Lemma flat_map_nil_forall {A B} (f : A -> list B) (l : list A) :
  (forall x, In x l -> f x = []) -> flat_map f l = [].
Proof.
  induction l as [|x l IH]; intros H; simpl; [reflexivity|].
  rewrite (H x (or_introl eq_refl)). apply IH. intros y Hy. apply H. now right.
Qed.

Lemma bookable_doctors_In doctorId db d u :
  In (d, u) (bookable_doctors doctorId db) <->
  In d (doctors db) /\ In u (users db) /\ d_user_id d = u_id u
  /\ d_id d = doctorId /\ d_is_available d = true /\ u_is_active u = true.
Proof.
  unfold bookable_doctors. rewrite in_flat_map. split.
  - intros (d' & Hd & Hin). apply in_map_iff in Hin as (u' & E & Hin).
    inversion E; subst d' u'. apply filter_In in Hin as (Hu & Hc).
    repeat (apply andb_true_iff in Hc as (Hc & ?)).
    repeat split; auto; lia.
  - intros (Hd & Hu & E1 & E2 & E3 & E4). exists d. split; [exact Hd|].
    apply in_map. apply filter_In. split; [exact Hu|].
    rewrite E3, E4. repeat (apply andb_true_iff; split); auto; lia.
Qed.

Lemma free_slots_In doctorId date time db sid :
  In sid (free_slots doctorId date time db) <->
  exists s, In s (doctor_time_slots db) /\ s_id s = sid /\ s_doctor_id s = doctorId
            /\ slot_date s = date /\ slot_time s = time /\ is_booked s = false.
Proof.
  unfold free_slots. rewrite in_map_iff. split.
  - intros (s & E & Hin). apply filter_In in Hin as (Hs & Hc).
    repeat (apply andb_true_iff in Hc as (Hc & ?)).
    exists s. repeat split; auto; try lia. now apply negb_true_iff.
  - intros (s & Hs & E & E1 & E2 & E3 & E4). exists s. split; [exact E|].
    apply filter_In. split; [exact Hs|]. rewrite E4.
    repeat (apply andb_true_iff; split); auto; lia.
Qed.

(** *** The catch blocks *)

Lemma book_catch_not_found {db} :
  book_catch db "Doctor not found or not available"
  = (ErrorJson 400 "Bad Request" "Doctor not found or not available", db).
Proof. reflexivity. Qed.

Lemma book_catch_not_support db mode :
  book_catch db ("Doctor does not support " ++ mode ++ " consultations")
  = (ErrorJson 400 "Bad Request"
       ("Doctor does not support " ++ mode ++ " consultations"), db).
Proof.
  unfold book_catch.
  assert (H : includes ("Doctor does not support " ++ mode ++ " consultations")
                "not support" = true) by reflexivity.
  rewrite H, !orb_true_r. reflexivity.
Qed.

Lemma book_catch_slot {db} :
  book_catch db "Selected time slot is not available"
  = (ErrorJson 400 "Bad Request" "Selected time slot is not available", db).
Proof. reflexivity. Qed.

(** *** Booking, step by step *)

Lemma book_checks_eq value db :
  book_checks value db =
  match bookable_doctors (doctorId value) db with
  | [] => (Thrown "Doctor not found or not available", db)
  | (doctor, _) :: _ =>
      if array_includes (d_consultation_modes doctor) (consultationMode value)
      then
        match free_slots (doctorId value) (date_of_instant (appointmentDate value))
                (time_of_string (appointmentTime value)) db with
        | [] => (Thrown "Selected time slot is not available", db)
        | slotId :: _ => (Returned (doctor, slotId), db)
        end
      else (Thrown ("Doctor does not support " ++ consultationMode value
                    ++ " consultations"), db)
  end.
Proof.
  unfold book_checks, bind, select.
  destruct (bookable_doctors (doctorId value) db) as [|[doctor du] rest]; [reflexivity|].
  destruct (array_includes (d_consultation_modes doctor) (consultationMode value));
    simpl; [|reflexivity].
  destruct (free_slots _ _ _ db); reflexivity.
Qed.

Lemma book_writes_eq u value doctor slotId db :
  book_writes u value (doctor, slotId) db =
  (Returned
     (mkAppointment (appointments_id_seq db) (id u) (doctorId value) slotId
        (date_of_instant (appointmentDate value))
        (time_of_string (appointmentTime value))
        (consultationMode value) scheduled (reasonForVisit value) None None
        (d_consultation_fee doctor)),
   after_booking u value doctor slotId db).
Proof.
  unfold book_writes, after_booking, bind, insert_appointment, update_slot_booked,
    insert_notifications, insert_notification, ret, with_slots, bind; simpl.
  rewrite <- app_assoc. reflexivity.
Qed.

Lemma bookAppointment_patient now u body db :
  role u = "patient" ->
  bookAppointment now u body db = book_handler now body (authenticated u) db.
Proof.
  intros H. unfold bookAppointment, requirePatient. simpl. rewrite H. reflexivity.
Qed.

Lemma book_handler_valid now u body db :
  validate_booking now body = None ->
  book_handler now body (authenticated u) db =
  match book_checks body db with
  | (Returned (doctor, slotId), _) =>
      (Json 201
         (mkAppointment (appointments_id_seq db) (id u) (doctorId body) slotId
            (date_of_instant (appointmentDate body))
            (time_of_string (appointmentTime body))
            (consultationMode body) scheduled (reasonForVisit body) None None
            (d_consultation_fee doctor)),
       after_booking u body doctor slotId db)
  | (Thrown message, _) => book_catch db message
  end.
Proof.
  intros Hv. unfold book_handler. rewrite Hv. simpl.
  unfold transaction, book_callback, bind. rewrite book_checks_eq.
  destruct (bookable_doctors (doctorId body) db) as [|[doctor du] rest]; [reflexivity|].
  destruct (array_includes (d_consultation_modes doctor) (consultationMode body));
    [|reflexivity].
  destruct (free_slots _ _ _ db); [reflexivity|].
  rewrite book_writes_eq. reflexivity.
Qed.

(** Whatever is answered, a booking that does not answer 201 leaves the
    database as it was. *)
Lemma bookAppointment_atomic now u body db :
  succeeded (fst (bookAppointment now u body db)) = false ->
  snd (bookAppointment now u body db) = db.
Proof.
  unfold bookAppointment, requirePatient. simpl.
  destruct (negb (role u =? "patient")%string); [reflexivity|].
  unfold book_handler. destruct (validate_booking now body); [reflexivity|]. simpl.
  unfold transaction.
  destruct (book_callback u body db) as [[appointment|message] db']; simpl.
  - discriminate.
  - intros _. unfold book_catch.
    destruct (includes message "not found" || includes message "not available"
              || includes message "not support"); reflexivity.
Qed.

(** *** C10: only patients book *)

(** C10. A principal whose role is not 'patient' is answered 403
    Forbidden by [requirePatient], whatever the body of the request is
    (valid or not), and the database is left as it was. *)
Theorem bookAppointment_patients_only now u body db :
  role u <> "patient" ->
  ForbiddenPatientOnly (fst (bookAppointment now u body db))
  /\ snd (bookAppointment now u body db) = db.
Proof.
  intros H. unfold bookAppointment, requirePatient, ForbiddenPatientOnly. simpl.
  apply String.eqb_neq in H. rewrite H. simpl. split; reflexivity.
Qed.

Lemma bookAppointment_patients_only_witness :
  role drx <> "patient"
  /\ ForbiddenPatientOnly (fst (bookAppointment day_before drx nine_online clinic))
  /\ snd (bookAppointment day_before drx nine_online clinic) = clinic.
Proof.
  split; [discriminate|].
  apply (bookAppointment_patients_only day_before drx nine_online clinic). discriminate.
Defined.

(** *** C5: how a booking fails *)



(** *** Status updates and cancellations, step by step *)

Lemma status_handler_eq u rd appointmentId body db :
  validate_status body = None ->
  status_handler appointmentId body (mkRequest (Some u) rd) db =
  match appointments_with_doctor appointmentId db with
  | [] => (ErrorJson 404 "Not Found" "Appointment not found", db)
  | (appointment, doctor_user_id) :: _ =>
      if doctor_user_id =? id u
      then (Json 200
              (hd_error
                 (map (updated_row (new_status body) (truthy (new_notes body))
                         (truthy (new_prescription body)))
                    (filter (fun a => a_id a =? appointmentId) (appointments db)))),
            after_status appointmentId body (patient_id appointment) db)
      else (ErrorJson 403 "Forbidden" "You can only update your own appointments", db)
  end.
Proof.
  intros Hv. unfold status_handler. rewrite Hv. simpl.
  unfold status_queries, bind, select.
  destruct (appointments_with_doctor appointmentId db) as [|[appointment duid] rest];
    [reflexivity|].
  destruct (duid =? id u); reflexivity.
Qed.

Lemma cancelAppointment_eq u appointmentId db :
  cancelAppointment u appointmentId db =
  match appointments_with_doctor appointmentId db with
  | [] => (ErrorJson 400 "Bad Request" "Appointment not found", db)
  | (appointment, doctor_user_id) :: _ =>
      if canCancel u appointment doctor_user_id
      then
        if cancellable (status appointment)
        then (Json 200 tt,
              after_cancel appointmentId (slot_id appointment)
                (cancellation_recipient u appointment doctor_user_id) db)
        else (ErrorJson 400 "Bad Request"
                "Cannot cancel appointment with current status", db)
      else (ErrorJson 400 "Bad Request"
              "You do not have permission to cancel this appointment", db)
  end.
Proof.
  unfold cancelAppointment, cancel_handler, transaction, cancel_callback, bind, select.
  simpl.
  destruct (appointments_with_doctor appointmentId db) as [|[appointment duid] rest];
    [reflexivity|].
  destruct (canCancel u appointment duid); [|reflexivity].
  destruct (cancellable (status appointment)); [|reflexivity].
  unfold cancellation_recipient. simpl.
  destruct (role u =? "patient")%string; reflexivity.
Qed.

Lemma getAppointment_db u appointmentId db :
  snd (getAppointment u appointmentId db) = db.
Proof.
  unfold getAppointment, get_handler, select. simpl.
  destruct (appointment_details appointmentId db) as [|appointment rest];
    [reflexivity|].
  destruct (negb (hasAccess (authenticated u) u appointment)); reflexivity.
Qed.

Lemma bookAppointment_db now u body db :
  snd (bookAppointment now u body db) = db
  \/ exists doctor slotId,
       In slotId (free_slots (doctorId body) (date_of_instant (appointmentDate body))
                    (time_of_string (appointmentTime body)) db)
       /\ snd (bookAppointment now u body db) = after_booking u body doctor slotId db.
Proof.
  destruct (succeeded (fst (bookAppointment now u body db))) eqn:E.
  - right. revert E. unfold bookAppointment, requirePatient. simpl.
    destruct (negb (role u =? "patient")%string); [discriminate|].
    destruct (validate_booking now body) eqn:Hv.
    + unfold book_handler. rewrite Hv. discriminate.
    + rewrite (book_handler_valid _ _ _ _ Hv), book_checks_eq.
      destruct (bookable_doctors (doctorId body) db) as [|[doctor du] rest];
        [rewrite book_catch_not_found; discriminate|].
      destruct (array_includes (d_consultation_modes doctor) (consultationMode body));
        [|rewrite book_catch_not_support; discriminate].
      destruct (free_slots _ _ _ db) as [|slotId more];
        [rewrite book_catch_slot; discriminate|].
      intros _. exists doctor, slotId. split; [now left|reflexivity].
  - left. now apply bookAppointment_atomic.
Qed.

Lemma updateStatus_db u appointmentId body db :
  snd (updateStatus u appointmentId body db) = db
  \/ exists patient,
       snd (updateStatus u appointmentId body db)
       = after_status appointmentId body patient db.
Proof.
  unfold updateStatus, requireDoctor. simpl.
  destruct (negb (role u =? "doctor")%string); [now left|].
  destruct (filter (fun d => d_user_id d =? id u) (doctors db)) as [|doctor rest];
    [now left|].
  destruct (negb (d_is_available doctor)); [now left|].
  destruct (validate_status body) eqn:Hv.
  - unfold status_handler. rewrite Hv. now left.
  - rewrite (status_handler_eq _ _ _ _ _ Hv).
    destruct (appointments_with_doctor appointmentId db) as [|[appointment duid] more];
      [now left|].
    destruct (duid =? id u); [|now left].
    right. exists (patient_id appointment). reflexivity.
Qed.

Lemma cancelAppointment_db u appointmentId db :
  snd (cancelAppointment u appointmentId db) = db
  \/ exists slotId recipient,
       snd (cancelAppointment u appointmentId db)
       = after_cancel appointmentId slotId recipient db.
Proof.
  rewrite cancelAppointment_eq.
  destruct (appointments_with_doctor appointmentId db) as [|[appointment duid] more];
    [now left|].
  destruct (canCancel u appointment duid); [|now left].
  destruct (cancellable (status appointment)); [|now left].
  right. eexists. eexists. reflexivity.
Qed.

(** *** Histories *)


Lemma updated_row_keeps st n p a :
  a_id (updated_row st n p a) = a_id a
  /\ consultation_fee (updated_row st n p a) = consultation_fee a
  /\ slot_id (updated_row st n p a) = slot_id a
  /\ status (updated_row st n p a) = st.
Proof. destruct n, p; repeat split. Qed.



(** *** C4: what a successful booking leaves *)



(** *** Primary keys *)

Lemma flat_map_unique {A B} (key : A -> Z) (f : A -> list B) (l : list A) (x : A) :
  NoDup (map key l) -> In x l ->
  (forall y, In y l -> key y <> key x -> f y = []) ->
  flat_map f l = f x.
Proof.
  induction l as [|y l IH]; intros Hnd Hin Hother; [destruct Hin|].
  simpl in Hnd. inversion Hnd as [|k ks Hnotin Hnd']; subst. simpl.
  destruct Hin as [->|Hin].
  - rewrite (flat_map_nil_forall f l); [apply app_nil_r|].
    intros z Hz. apply Hother; [now right|].
    intros E. apply Hnotin. rewrite <- E. now apply in_map.
  - rewrite (Hother y (or_introl eq_refl)).
    + apply IH; auto. intros z Hz. apply Hother. now right.
    + intros E. apply Hnotin. rewrite E. now apply in_map.
Qed.

Lemma filter_unique {A} (key : A -> Z) (p : A -> bool) (l : list A) (x : A) :
  NoDup (map key l) -> In x l -> p x = true ->
  (forall y, In y l -> p y = true -> key y = key x) ->
  filter p l = [x].
Proof.
  induction l as [|y l IH]; intros Hnd Hin Hp Hkey; [destruct Hin|].
  simpl in Hnd. inversion Hnd as [|k ks Hnotin Hnd']; subst. simpl.
  destruct Hin as [->|Hin].
  - rewrite Hp. f_equal. apply filter_nil_forall. intros z Hz.
    destruct (p z) eqn:Ez; [|reflexivity]. exfalso. apply Hnotin.
    rewrite <- (Hkey z (or_intror Hz) Ez). now apply in_map.
  - destruct (p y) eqn:Ey.
    + exfalso. apply Hnotin. rewrite (Hkey y (or_introl eq_refl) Ey). now apply in_map.
    + apply IH; auto. intros z Hz. apply Hkey. now right.
Qed.

(** With ids that are keys, the join of DELETE /:id and of PUT /:id/status
    loads the one appointment of that id, with the account of its doctor. *)
Lemma appointments_with_doctor_loaded appointmentId db a d :
  NoDup (map a_id (appointments db)) -> NoDup (map d_id (doctors db)) ->
  In a (appointments db) -> a_id a = appointmentId ->
  In d (doctors db) -> d_id d = doctor_id a ->
  appointments_with_doctor appointmentId db = [(a, d_user_id d)].
Proof.
  intros Hna Hnd Ha Hid Hd Hdoc. unfold appointments_with_doctor.
  rewrite (flat_map_unique a_id _ (appointments db) a Hna Ha).
  - rewrite (filter_unique d_id _ (doctors db) d Hnd Hd); [reflexivity| |].
    + apply andb_true_iff. split; lia.
    + intros y _ Hy. apply andb_true_iff in Hy as (Hy & _). lia.
  - intros y _ Hy. rewrite filter_nil_forall; [reflexivity|].
    intros z _. apply andb_false_iff. right. lia.
Qed.


(** *** Who may cancel, and when *)

Lemma canCancel_spec u appointment doctor_user_id :
  canCancel u appointment doctor_user_id = true <->
  (role u = "patient" /\ patient_id appointment = id u)
  \/ (role u = "doctor" /\ doctor_user_id = id u)
  \/ role u = "admin".
Proof.
  unfold canCancel. rewrite !orb_true_iff, !andb_true_iff, !String.eqb_eq, !Z.eqb_eq.
  tauto.
Qed.


(** *** C6: the errors and the effect of a cancellation *)



(** *** C7: who is told of a cancellation *)

(** X19. A cancellation that succeeds adds exactly one notification, of
    type 'cancellation' and about the appointment: to the account of the
    doctor when the requester's role is 'patient', and to the patient for
    every other role. *)
Lemma cancelAppointment_notifies u appointmentId db a d :
  NoDup (map a_id (appointments db)) -> NoDup (map d_id (doctors db)) ->
  In a (appointments db) -> a_id a = appointmentId ->
  In d (doctors db) -> d_id d = doctor_id a ->
  succeeded (fst (cancelAppointment u appointmentId db)) = true ->
  notifications (snd (cancelAppointment u appointmentId db))
  = notifications db
    ++ [mkNotification (notifications_id_seq db)
          (if (role u =? "patient")%string then d_user_id d else patient_id a)
          "cancellation" appointmentId].
Proof.
  intros Hna Hnd Ha Hid Hd Hdoc. rewrite cancelAppointment_eq.
  rewrite (appointments_with_doctor_loaded _ _ a d Hna Hnd Ha Hid Hd Hdoc).
  destruct (canCancel u a (d_user_id d)); [|discriminate].
  destruct (cancellable (status a)); [|discriminate].
  intros _. reflexivity.
Qed.

(** C7, at an admin's cancellation. The admin (account 3) cancels
    appointment 1 of patient 1 with the doctor of account 2: the call
    succeeds and the one notification added goes to the patient; none goes
    to the doctor. *)
Theorem cancel_by_admin_notifies_patient_only :
  fst (cancelAppointment root 1 booked) = Json 200 tt
  /\ notifications (snd (cancelAppointment root 1 booked))
     = notifications booked ++ [mkNotification 3 1 "cancellation" 1]
  /\ filter (fun n => (n_user_id n =? 2) && (n_type n =? "cancellation")%string)
       (notifications (snd (cancelAppointment root 1 booked))) = [].
Proof. repeat split. Qed.

(** *** C8: who may read an appointment *)

Lemma appointment_details_In appointmentId db a :
  In a (appointment_details appointmentId db) ->
  In a (appointments db) /\ a_id a = appointmentId.
Proof.
  unfold appointment_details. intros H.
  apply in_flat_map in H as (a0 & Ha0 & H).
  apply in_flat_map in H as (up & _ & H).
  apply in_flat_map in H as (d & _ & H).
  apply in_flat_map in H as (ud & _ & H).
  apply in_map_iff in H as (s & E & H). subst a0.
  apply filter_In in H as (_ & H).
  apply andb_true_iff in H as (_ & H). split; [exact Ha0|lia].
Qed.

(** GET /:id runs without [requireDoctor], so [req.doctor] is not there and
    the doctor branch of the access check never holds: a requester in role
    'doctor' is never given an appointment. *)
Lemma getAppointment_never_for_doctors u appointmentId db :
  role u = "doctor" -> succeeded (fst (getAppointment u appointmentId db)) = false.
Proof.
  intros H. unfold getAppointment, get_handler, select. simpl.
  destruct (appointment_details appointmentId db) as [|a rest]; [reflexivity|].
  unfold hasAccess. rewrite H. reflexivity.
Qed.

(** The owning patient and an admin are given the appointment that the
    query loads; a patient who does not own it is answered 403. *)
Lemma getAppointment_patient_admin u appointmentId db a rest :
  appointment_details appointmentId db = a :: rest ->
  ((role u = "patient" /\ patient_id a = id u) \/ role u = "admin" ->
   getAppointment u appointmentId db = (Json 200 a, db))
  /\ (role u = "patient" -> patient_id a <> id u ->
      getAppointment u appointmentId db
      = (ErrorJson 403 "Forbidden"
           "You do not have permission to view this appointment", db)).
Proof.
  intros E. unfold getAppointment, get_handler, select. simpl. rewrite E.
  unfold hasAccess. simpl. split.
  - intros [[-> Hp] | ->]; simpl.
    + apply Z.eqb_eq in Hp. rewrite Hp. reflexivity.
    + reflexivity.
  - intros -> Hp. apply Z.eqb_neq in Hp. simpl. rewrite Hp. reflexivity.
Qed.

Lemma getAppointment_absent u appointmentId db :
  (forall a, In a (appointments db) -> a_id a <> appointmentId) ->
  getAppointment u appointmentId db
  = (ErrorJson 404 "Not Found" "Appointment not found", db).
Proof.
  intros H. unfold getAppointment, get_handler, select. simpl.
  destruct (appointment_details appointmentId db) as [|a rest] eqn:E; [reflexivity|].
  assert (Hin : In a (appointment_details appointmentId db)) by (rewrite E; now left).
  apply appointment_details_In in Hin as (Ha & Hid). destruct (H a Ha Hid).
Qed.

(** C8, at the owning doctor. Dr. X (account 2, doctor 10) asks for
    appointment 1, which is with doctor 10: the answer is 403 Forbidden,
    while the patient and the admin are given the appointment. *)
Theorem getAppointment_refuses_owning_doctor :
  doctor_id appointment1 = d_id doctor10 /\ d_user_id doctor10 = id drx
  /\ getAppointment drx 1 booked
     = (ErrorJson 403 "Forbidden"
          "You do not have permission to view this appointment", booked)
  /\ getAppointment alice 1 booked = (Json 200 appointment1, booked)
  /\ getAppointment root 1 booked = (Json 200 appointment1, booked).
Proof. repeat split. Qed.

(** *** C9: bookings in the past *)

(** What the schema does check: a [Date] that lies before the server time
    is refused, and nothing is written. *)
Lemma bookAppointment_rejects_past_date now u body db :
  role u = "patient" -> 0 < doctorId body -> appointmentDate body < now ->
  bookAppointment now u body db = (ValidationError "appointmentDate", db).
Proof.
  intros Hrole Hd Hpast. rewrite (bookAppointment_patient _ _ _ _ Hrole).
  unfold book_handler, validate_booking.
  apply Z.ltb_lt in Hd. rewrite Hd. simpl.
  apply Z.leb_gt in Hpast. rewrite Hpast. reflexivity.
Qed.

(** The schema looks at appointmentTime through the pattern only: two
    bodies that differ in a well-formed time of day are both valid or both
    refused, for the same key. *)
Lemma validate_booking_ignores_time_of_day now doctor date t1 t2 mode reason :
  time_pattern t1 = true -> time_pattern t2 = true ->
  validate_booking now (mkBookBody doctor date t1 mode reason)
  = validate_booking now (mkBookBody doctor date t2 mode reason).
Proof.
  intros H1 H2. unfold validate_booking. simpl. rewrite H1, H2. reflexivity.
Qed.

(** C9, at a time of day that is over. At noon of 2024-06-01 a patient
    asks for appointmentTime 09:00 with an appointmentDate of the same day
    that is not before noon (23:00): the body passes validation, the slot of
    09:00 of that day is booked, and the appointment lies three hours before
    the server time. *)
Theorem bookAppointment_accepts_past_time :
  validate_booking noon this_morning = None
  /\ bookAppointment noon alice this_morning clinic = (Json 201 appointment1, booked)
  /\ date_of_instant noon = appointment_date appointment1
  /\ instant_of (appointment_date appointment1) (appointment_time appointment1) < noon.
Proof. repeat split. Qed.

(** *** C2: leaving a terminal status *)

(** DELETE /:id never cancels an appointment whose status is terminal, and
    leaves the database as it was. *)
Lemma cancelAppointment_terminal u appointmentId db a d :
  NoDup (map a_id (appointments db)) -> NoDup (map d_id (doctors db)) ->
  In a (appointments db) -> a_id a = appointmentId ->
  In d (doctors db) -> d_id d = doctor_id a ->
  terminal (status a) = true ->
  succeeded (fst (cancelAppointment u appointmentId db)) = false
  /\ snd (cancelAppointment u appointmentId db) = db.
Proof.
  intros Hna Hnd Ha Hid Hd Hdoc Ht. rewrite cancelAppointment_eq.
  rewrite (appointments_with_doctor_loaded _ _ a d Hna Hnd Ha Hid Hd Hdoc).
  destruct (canCancel u a (d_user_id d)); [|split; reflexivity].
  destruct (status a); try discriminate; split; reflexivity.
Qed.

(** PUT /:id/status does not look at the status the appointment has: for
    the doctor of the appointment and a valid body the update is made
    whatever that status is. *)
Lemma updateStatus_any_status u appointmentId body db a d :
  NoDup (map a_id (appointments db)) -> NoDup (map d_id (doctors db)) ->
  In a (appointments db) -> a_id a = appointmentId ->
  In d (doctors db) -> d_id d = doctor_id a ->
  role u = "doctor" -> d_user_id d = id u ->
  (forall d', In d' (doctors db) -> d_user_id d' = id u -> d_is_available d' = true) ->
  validate_status body = None ->
  exists a',
    fst (updateStatus u appointmentId body db) = Json 200 (Some a')
    /\ In a' (appointments (snd (updateStatus u appointmentId body db)))
    /\ a_id a' = appointmentId
    /\ status a' = new_status body.
Proof.
  intros Hna Hnd Ha Hid Hd Hdoc Hrole Hown Hav Hv.
  unfold updateStatus, requireDoctor. simpl. rewrite Hrole. simpl.
  destruct (filter (fun d0 => d_user_id d0 =? id u) (doctors db)) as [|d0 rest] eqn:E.
  { assert (Hin : In d (filter (fun d0 => d_user_id d0 =? id u) (doctors db))).
    { apply filter_In. split; [exact Hd|]. lia. }
    rewrite E in Hin. destruct Hin. }
  assert (Hin : In d0 (filter (fun d0 => d_user_id d0 =? id u) (doctors db)))
    by (rewrite E; now left).
  apply filter_In in Hin as (Hd0 & Hu0). rewrite (Hav d0 Hd0) by lia. simpl.
  rewrite (status_handler_eq _ _ _ _ _ Hv).
  rewrite (appointments_with_doctor_loaded _ _ a d Hna Hnd Ha Hid Hd Hdoc).
  rewrite Hown, Z.eqb_refl.
  rewrite (filter_unique a_id _ (appointments db) a Hna Ha);
    [|lia|intros y _ Hy; lia].
  simpl. eexists. split; [reflexivity|]. split; [|split].
  - apply in_map_iff. exists a. split; [|exact Ha].
    replace (a_id a =? appointmentId) with true by lia. reflexivity.
  - rewrite <- Hid. apply updated_row_keeps.
  - apply updated_row_keeps.
Qed.

(** C2, at a completed appointment. Appointment 1 is completed; its
    doctor asks for 'confirmed' and then for 'cancelled': both calls are
    answered 200 and the status changes each time. *)
Theorem updateStatus_leaves_terminal_status :
  appointments done = [set_status completed appointment1]
  /\ updateStatus drx 1 (mkStatusBody confirmed None None) done
     = (Json 200 (Some (set_status confirmed appointment1)),
        after_status 1 (mkStatusBody confirmed None None) 1 done)
  /\ appointments (after_status 1 (mkStatusBody confirmed None None) 1 done)
     = [set_status confirmed appointment1]
  /\ fst (updateStatus drx 1 (mkStatusBody cancelled None None) done)
     = Json 200 (Some (set_status cancelled appointment1)).
Proof. repeat split. Qed.

(** *** Bookings and cancellations keep slots and appointments in agreement *)

Lemma active_non_cancelled a : active a = true -> non_cancelled a = true.
Proof.
  unfold active, non_cancelled. destruct (status a); simpl; intros H;
    first [reflexivity | discriminate].
Qed.

Lemma filter_map_same {A} (p : A -> bool) (f : A -> A) (l : list A) :
  (forall x, In x l -> p (f x) = p x) -> filter p (map f l) = map f (filter p l).
Proof.
  induction l as [|x l IH]; intros H; simpl; [reflexivity|].
  rewrite (H x (or_introl eq_refl)).
  rewrite IH by (intros y Hy; apply H; now right).
  destruct (p x); reflexivity.
Qed.

Lemma filter_single {A} (p : A -> bool) (l : list A) (x y : A) :
  List.length (filter p l) = 1%nat ->
  In x l -> p x = true -> In y l -> p y = true -> x = y.
Proof.
  intros Hlen Hx Px Hy Py.
  assert (Hx' : In x (filter p l)) by (apply filter_In; now split).
  assert (Hy' : In y (filter p l)) by (apply filter_In; now split).
  destruct (filter p l) as [|z [|z' rest]]; try discriminate.
  destruct Hx' as [<-|[]], Hy' as [<-|[]]. reflexivity.
Qed.

Lemma NoDup_key_eq {A} (key : A -> Z) (l : list A) (x y : A) :
  NoDup (map key l) -> In x l -> In y l -> key x = key y -> x = y.
Proof.
  induction l as [|z l IH]; intros Hnd Hx Hy E; [destruct Hx|].
  simpl in Hnd. inversion Hnd as [|k ks Hnotin Hnd']; subst.
  destruct Hx as [->|Hx], Hy as [->|Hy]; auto.
  - exfalso. apply Hnotin. rewrite E. now apply in_map.
  - exfalso. apply Hnotin. rewrite <- E. now apply in_map.
Qed.

Lemma coherent_consistent db : coherent db -> consistent db.
Proof.
  intros (_ & _ & HA & HB & HC). split; [exact HA|]. split; [exact HB|].
  intros s Hs Hfree. unfold referring. apply filter_nil_forall. intros a Ha.
  destruct ((slot_id a =? s_id s) && active a) eqn:E; [|reflexivity].
  apply andb_true_iff in E as (E1 & E2).
  assert (Hin : In a (referring non_cancelled (s_id s) db)).
  { apply filter_In. split; [exact Ha|]. rewrite E1. now apply active_non_cancelled. }
  rewrite (HC s Hs Hfree) in Hin. destruct Hin.
Qed.

(** Slot rows that share an id share the flag. *)
Lemma coherent_same_flag db s s' :
  coherent db -> In s (doctor_time_slots db) -> In s' (doctor_time_slots db) ->
  s_id s = s_id s' -> is_booked s = false -> is_booked s' = false.
Proof.
  intros (_ & _ & _ & HB & HC) Hs Hs' E Hfree.
  destruct (is_booked s') eqn:F; [|reflexivity].
  pose proof (HB s' Hs' F) as H1. rewrite <- E, (HC s Hs Hfree) in H1. discriminate.
Qed.

Lemma after_booking_coherent u body doctor slotId db :
  coherent db ->
  In slotId (free_slots (doctorId body) (date_of_instant (appointmentDate body))
               (time_of_string (appointmentTime body)) db) ->
  coherent (after_booking u body doctor slotId db).
Proof.
  intros Hco Hfree. pose proof Hco as (HK & HF & HA & HB & HC).
  apply free_slots_In in Hfree as (s0 & Hs0 & Hid0 & _ & _ & _ & Hfree0).
  set (a0 := mkAppointment (appointments_id_seq db) (id u) (doctorId body) slotId
               (date_of_instant (appointmentDate body))
               (time_of_string (appointmentTime body)) (consultationMode body)
               scheduled (reasonForVisit body) None None (d_consultation_fee doctor)).
  assert (Hrefs : forall sid,
            referring non_cancelled sid (after_booking u body doctor slotId db)
            = referring non_cancelled sid db
              ++ (if slotId =? sid then [a0] else [])).
  { intros sid. unfold referring, after_booking. simpl. rewrite filter_app. simpl.
    destruct (slotId =? sid); reflexivity. }
  unfold coherent. split; [|split; [|split; [|split]]].
  - unfold after_booking. simpl. rewrite map_app. simpl.
    apply NoDup_app; [exact HK|repeat constructor; intros []|].
    intros k Hk [<-|[]]. apply in_map_iff in Hk as (a & E & Ha).
    specialize (HF a Ha). lia.
  - unfold after_booking. simpl. intros a Ha. apply in_app_iff in Ha as [Ha|[<-|[]]].
    + specialize (HF a Ha). lia.
    + simpl. lia.
  - unfold after_booking. simpl. intros a Ha Hact.
    assert (Hs : exists s, In s (doctor_time_slots db) /\ s_id s = slot_id a
                           /\ (is_booked s = true \/ s_id s = slotId)).
    { apply in_app_iff in Ha as [Ha|[<-|[]]].
      - destruct (HA a Ha Hact) as (s & Hs & E & B). exists s. auto.
      - exists s0. simpl. auto. }
    destruct Hs as (s & Hs & E & B).
    exists (if s_id s =? slotId then set_booked true s else s). split; [|split].
    + apply in_map_iff. exists s. split; [reflexivity|exact Hs].
    + destruct (s_id s =? slotId); exact E.
    + destruct (s_id s =? slotId) eqn:Eq; [reflexivity|]. destruct B; [assumption|lia].
  - intros s' Hs' Hb. rewrite Hrefs.
    unfold after_booking in Hs'. simpl in Hs'.
    apply in_map_iff in Hs' as (s & <- & Hs).
    destruct (s_id s =? slotId) eqn:Eq.
    + simpl. apply Z.eqb_eq in Eq. rewrite Eq, Z.eqb_refl.
      assert (Hf : is_booked s = false).
      { apply (coherent_same_flag db s0 s Hco Hs0 Hs); [lia|exact Hfree0]. }
      rewrite <- Eq, (HC s Hs Hf). reflexivity.
    + simpl in Hb |- *. replace (slotId =? s_id s) with false by lia.
      rewrite app_nil_r. now apply HB.
  - intros s' Hs' Hb. rewrite Hrefs.
    unfold after_booking in Hs'. simpl in Hs'.
    apply in_map_iff in Hs' as (s & <- & Hs).
    destruct (s_id s =? slotId) eqn:Eq; [discriminate|].
    replace (slotId =? s_id s) with false by lia.
    rewrite app_nil_r. now apply HC.
Qed.

Lemma appointments_with_doctor_In appointmentId db a doctor_user_id :
  In (a, doctor_user_id) (appointments_with_doctor appointmentId db) ->
  In a (appointments db) /\ a_id a = appointmentId.
Proof.
  unfold appointments_with_doctor. intros H.
  apply in_flat_map in H as (a0 & Ha0 & H).
  apply in_map_iff in H as (d & E & H). inversion E; subst a0.
  apply filter_In in H as (_ & H). apply andb_true_iff in H as (_ & H).
  split; [exact Ha0|lia].
Qed.

Lemma after_cancel_coherent appointmentId recipient db a :
  coherent db -> In a (appointments db) -> a_id a = appointmentId ->
  active a = true ->
  coherent (after_cancel appointmentId (slot_id a) recipient db).
Proof.
  intros Hco Ha Hid Hact. pose proof Hco as (HK & HF & HA & HB & HC).
  set (f := fun a' => if a_id a' =? appointmentId then set_status cancelled a' else a').
  set (g := fun s => if s_id s =? slot_id a then set_booked false s else s).
  assert (Hf_id : forall x, a_id (f x) = a_id x)
    by (intros x; unfold f; destruct (a_id x =? appointmentId); reflexivity).
  assert (Hf_slot : forall x, slot_id (f x) = slot_id x)
    by (intros x; unfold f; destruct (a_id x =? appointmentId); reflexivity).
  assert (Hthe : forall x, In x (appointments db) -> a_id x = appointmentId -> x = a).
  { intros x Hx E. apply (NoDup_key_eq a_id (appointments db)); auto. lia. }
  (* an appointment other than [a] that is not cancelled does not refer to
     the slot of [a] *)
  assert (Hsole : forall x s, In x (appointments db) -> In s (doctor_time_slots db) ->
            s_id s = slot_id a -> slot_id x = slot_id a -> non_cancelled x = true ->
            x = a).
  { intros x s Hx Hs Es Ex Hnc.
    destruct (is_booked s) eqn:B.
    - apply (filter_single _ (appointments db) x a (HB s Hs B)); auto.
      + rewrite Es, Ex, Z.eqb_refl. exact Hnc.
      + rewrite Es, Z.eqb_refl. now apply active_non_cancelled.
    - exfalso.
      assert (Hin : In a (referring non_cancelled (s_id s) db)).
      { apply filter_In. split; [exact Ha|].
        rewrite Es, Z.eqb_refl. now apply active_non_cancelled. }
      rewrite (HC s Hs B) in Hin. destruct Hin. }
  unfold coherent, after_cancel, referring. simpl. fold f g.
  split; [|split; [|split; [|split]]].
  - rewrite map_map. rewrite (map_ext _ a_id Hf_id). exact HK.
  - intros a' Ha'. apply in_map_iff in Ha' as (x & <- & Hx). rewrite Hf_id. now apply HF.
  - intros a' Ha' Hact'. apply in_map_iff in Ha' as (x & <- & Hx).
    unfold f in Hact' |- *. destruct (a_id x =? appointmentId) eqn:E; [discriminate|].
    destruct (HA x Hx Hact') as (s & Hs & Es & B).
    exists (g s). unfold g. destruct (s_id s =? slot_id a) eqn:Eq.
    + exfalso. assert (x = a).
      { apply (Hsole x s Hx Hs); [lia|lia|now apply active_non_cancelled]. }
      subst x. lia.
    + split; [|split]; auto. apply in_map_iff. exists s. rewrite Eq. now split.
  - intros s' Hs' B. apply in_map_iff in Hs' as (s & <- & Hs).
    unfold g in B |- *. destruct (s_id s =? slot_id a) eqn:Eq; [discriminate|].
    rewrite filter_map_same.
    + rewrite length_map. now apply HB.
    + intros x Hx. rewrite Hf_slot. unfold f.
      destruct (a_id x =? appointmentId) eqn:E; [|reflexivity].
      rewrite (Hthe x Hx) by lia. replace (slot_id a =? s_id s) with false by lia.
      reflexivity.
  - intros s' Hs' B. apply in_map_iff in Hs' as (s & <- & Hs).
    apply filter_nil_forall. intros y Hy. apply in_map_iff in Hy as (x & <- & Hx).
    rewrite Hf_slot.
    assert (Hg : s_id (g s) = s_id s)
      by (unfold g; destruct (s_id s =? slot_id a); reflexivity).
    rewrite Hg. unfold f. destruct (a_id x =? appointmentId) eqn:E.
    + apply andb_false_r.
    + destruct ((slot_id x =? s_id s) && non_cancelled x) eqn:Q; [|reflexivity].
      apply andb_true_iff in Q as (Q1 & Q2). exfalso.
      destruct (s_id s =? slot_id a) eqn:Eq.
      * assert (x = a) by (apply (Hsole x s Hx Hs); [lia|lia|exact Q2]).
        subst x. lia.
      * unfold g in B. rewrite Eq in B.
        assert (Hin : In x (referring non_cancelled (s_id s) db)).
        { apply filter_In. split; [exact Hx|]. rewrite Q1. exact Q2. }
        rewrite (HC s Hs B) in Hin. destruct Hin.
Qed.

(** Bookings, reads and cancellations keep the agreement. *)
Lemma bookAppointment_coherent now u body db :
  coherent db -> coherent (snd (bookAppointment now u body db)).
Proof.
  intros Hco.
  destruct (bookAppointment_db now u body db) as [->|(doctor & slotId & Hin & ->)];
    [exact Hco|].
  now apply after_booking_coherent.
Qed.

Lemma cancelAppointment_coherent u appointmentId db :
  coherent db -> coherent (snd (cancelAppointment u appointmentId db)).
Proof.
  intros Hco. rewrite cancelAppointment_eq.
  destruct (appointments_with_doctor appointmentId db) as [|[a duid] rest] eqn:E;
    [exact Hco|].
  assert (Hin : In (a, duid) (appointments_with_doctor appointmentId db))
    by (rewrite E; now left).
  apply appointments_with_doctor_In in Hin as (Ha & Hid).
  destruct (canCancel u a duid); [|exact Hco].
  destruct (cancellable (status a)) eqn:Hact; [|exact Hco].
  now apply after_cancel_coherent.
Qed.

(** X20. A status update keeps slots and appointments in agreement
    when it follows the state machine: every appointment of the id is
    active and the new status is not 'cancelled'. *)
Lemma updateStatus_coherent u appointmentId body db :
  coherent db ->
  (forall a, In a (appointments db) -> a_id a = appointmentId -> active a = true) ->
  new_status body <> cancelled ->
  coherent (snd (updateStatus u appointmentId body db)).
Proof.
  intros Hco Hact Hnew.
  destruct (updateStatus_db u appointmentId body db) as [->|(patient & ->)];
    [exact Hco|].
  destruct Hco as (HK & HF & HA & HB & HC).
  set (f := fun a => if a_id a =? appointmentId
                     then updated_row (new_status body) (truthy (new_notes body))
                            (truthy (new_prescription body)) a
                     else a).
  assert (Hf_id : forall x, a_id (f x) = a_id x).
  { intros x. unfold f. destruct (a_id x =? appointmentId); [|reflexivity].
    apply updated_row_keeps. }
  assert (Hf_slot : forall x, slot_id (f x) = slot_id x).
  { intros x. unfold f. destruct (a_id x =? appointmentId); [|reflexivity].
    apply updated_row_keeps. }
  assert (Hf_nc : forall x, In x (appointments db) ->
            non_cancelled (f x) = non_cancelled x).
  { intros x Hx. unfold f. destruct (a_id x =? appointmentId) eqn:E; [|reflexivity].
    rewrite (active_non_cancelled x) by (apply Hact; [exact Hx|lia]).
    unfold non_cancelled.
    rewrite (proj2 (proj2 (proj2 (updated_row_keeps _ _ _ x)))).
    destruct (new_status body); try reflexivity. contradiction. }
  assert (Hq : forall sid x, In x (appointments db) ->
            (slot_id (f x) =? sid) && non_cancelled (f x)
            = (slot_id x =? sid) && non_cancelled x).
  { intros sid x Hx. now rewrite Hf_slot, Hf_nc. }
  unfold coherent, after_status, referring. simpl. fold f.
  split; [|split; [|split; [|split]]].
  - rewrite map_map. rewrite (map_ext _ a_id Hf_id). exact HK.
  - intros a' Ha'. apply in_map_iff in Ha' as (x & <- & Hx). rewrite Hf_id. now apply HF.
  - intros a' Ha' Hact'. apply in_map_iff in Ha' as (x & <- & Hx). rewrite Hf_slot.
    apply HA; [exact Hx|]. unfold f in Hact'.
    destruct (a_id x =? appointmentId) eqn:E; [|exact Hact'].
    apply Hact; [exact Hx|lia].
  - intros s Hs B. rewrite filter_map_same by (intros x Hx; now apply Hq).
    rewrite length_map. now apply HB.
  - intros s Hs B. rewrite filter_map_same by (intros x Hx; now apply Hq).
    unfold referring in HC. now rewrite (HC s Hs B).
Qed.

(** A database without appointments whose slots are all free is in
    agreement; the clinic is one. *)
Lemma coherent_fresh db :
  appointments db = [] ->
  (forall s, In s (doctor_time_slots db) -> is_booked s = false) ->
  coherent db.
Proof.
  intros Hnone Hfree. unfold coherent, referring. rewrite Hnone. simpl.
  split; [constructor|]. split; [intros a []|]. split; [intros a []|].
  split; [|reflexivity]. intros s Hs B. rewrite (Hfree s Hs) in B. discriminate.
Qed.

(** X21. Starting from a database in agreement, after any history of
    bookings, reads and DELETE cancellations (and rewrites of the doctors
    table) the slot of every active appointment is booked, every booked
    slot has exactly one appointment that is not cancelled, and no free slot
    has an active appointment. *)
Lemma run_coherent events : forall db,
  forallb no_status_update events = true -> coherent db ->
  consistent (run events db).
Proof.
  induction events as [|e events IH]; intros db Hev Hco.
  - now apply coherent_consistent.
  - simpl in Hev. apply andb_true_iff in Hev as (He & Hev).
    change (run (e :: events) db) with (run events (step db e)).
    apply IH; [exact Hev|].
    destruct e as [now u body|u i|u i body|u i|rows]; simpl.
    + now apply bookAppointment_coherent.
    + now rewrite getAppointment_db.
    + discriminate.
    + now apply cancelAppointment_coherent.
    + exact Hco.
Qed.

(** *** C1: slots and appointments agree *)

(** C1, at a cancellation through PUT /:id/status. The clinic with
    appointment 1 booked is consistent. Its doctor sets the status to
    'cancelled': the call is answered 200, the appointment is cancelled, and
    slot 100 is still booked, with no appointment left that is not
    cancelled. DELETE /:id on the same appointment frees the slot. *)
Theorem updateStatus_cancelled_keeps_slot_booked :
  consistent booked
  /\ fst (updateStatus drx 1 (mkStatusBody cancelled None None) booked)
     = Json 200 (Some (set_status cancelled appointment1))
  /\ doctor_time_slots (snd (updateStatus drx 1 (mkStatusBody cancelled None None) booked))
     = [mkSlot 100 10 19875 540 true]
  /\ referring non_cancelled 100
       (snd (updateStatus drx 1 (mkStatusBody cancelled None None) booked)) = []
  /\ ~ consistent (snd (updateStatus drx 1 (mkStatusBody cancelled None None) booked))
  /\ doctor_time_slots (snd (cancelAppointment drx 1 booked))
     = [mkSlot 100 10 19875 540 false]
  /\ consistent (snd (cancelAppointment drx 1 booked)).
Proof.
  split; [|split; [|split; [|split; [|split; [|split]]]]]; try reflexivity.
  - split; [|split].
    + intros a [<-|[]] _. eexists. split; [now left|]. split; reflexivity.
    + intros s [<-|[]] _. reflexivity.
    + intros s [<-|[]]. discriminate.
  - intros (_ & H & _).
    specialize (H (mkSlot 100 10 19875 540 true) (or_introl eq_refl) eq_refl).
    discriminate.
  - split; [|split].
    + intros a [<-|[]]. discriminate.
    + intros s [<-|[]]. discriminate.
    + intros s [<-|[]] _. reflexivity.
Qed.

(** *** C3: bookings of one slot, one after the other and at once *)

(** For one request the schedule is the transaction of the handler. *)
Lemma book_at_once_alone u body db :
  book_at_once [(u, body)] db
  = ([fst (transaction (book_callback u body) db)],
     snd (transaction (book_callback u body) db)).
Proof.
  unfold book_at_once, await_checks, transaction, book_callback, bind. simpl.
  rewrite book_checks_eq.
  destruct (bookable_doctors (doctorId body) db) as [|[doctor du] rest]; [reflexivity|].
  destruct (array_includes (d_consultation_modes doctor) (consultationMode body));
    [|reflexivity].
  destruct (free_slots _ _ _ db) as [|sid more]; [reflexivity|].
  cbn [fst]. rewrite !book_writes_eq. reflexivity.
Qed.

Lemma book_checks_offered body db :
  doctor_offers body db ->
  exists doctor,
    In doctor (doctors db) /\
    book_checks body db =
    match key_slots body db with
    | [] => (Thrown "Selected time slot is not available", db)
    | slotId :: _ => (Returned (doctor, slotId), db)
    end.
Proof.
  intros ((d & du & Hex) & Hmode). rewrite book_checks_eq.
  destruct (bookable_doctors (doctorId body) db) as [|[doctor du'] rest] eqn:E;
    [destruct Hex|].
  assert (Hin : In (doctor, du') (bookable_doctors (doctorId body) db))
    by (rewrite E; now left).
  apply bookable_doctors_In in Hin as (Hd & _ & _ & Hid & _ & _).
  rewrite (Hmode doctor Hd Hid). exists doctor. split; [exact Hd|reflexivity].
Qed.







Lemma commit_writes_all pending : forall db,
  Forall (fun p => exists found, snd p = Returned found) pending ->
  Forall given_appointment (fst (commit_writes pending db)).
Proof.
  induction pending as [|[[u body] o] rest IH]; intros db Hall; [constructor|].
  inversion Hall as [|p ps (found & Hfound) Hrest]; subst. simpl in Hfound. subst o.
  destruct found as [doctor slotId]. cbn [commit_writes]. rewrite book_writes_eq.
  specialize (IH (after_booking u body doctor slotId db) Hrest).
  destruct (commit_writes rest (after_booking u body doctor slotId db)) as [rs db2].
  constructor; [|exact IH]. eexists. split; reflexivity.
Qed.

(** At once, in that schedule, every request for a free slot that passes
    the doctor checks is given an appointment, however many there are. *)
Lemma book_at_once_all_win requests db :
  (forall u b, In (u, b) requests -> doctor_offers b db /\ key_slots b db <> []) ->
  Forall given_appointment (fst (book_at_once requests db)).
Proof.
  intros H. unfold book_at_once. apply commit_writes_all.
  unfold await_checks. apply Forall_forall. intros p Hp.
  apply in_map_iff in Hp as ([u b] & <- & Hin). simpl.
  destruct (H u b Hin) as (Hoff & Hfree).
  destruct (book_checks_offered b db Hoff) as (doctor & _ & ->).
  destruct (key_slots b db) as [|slotId more]; [contradiction|].
  eexists. reflexivity.
Qed.

(** C3, at two requests at once. Alice and Bob ask for the free slot
    (X, 2024-06-01, 09:00) and both callbacks read the slot before either
    writes: both are given an appointment, no request is answered with the
    slot conflict, and slot 100 has two scheduled appointments. One after
    the other, the same two requests give one appointment and one slot
    conflict. *)
Theorem book_at_once_two_winners :
  book_at_once [(alice, nine_online); (bob, nine_online)] clinic
  = ([Returned appointment1;
      Returned (mkAppointment 2 4 10 100 19875 540 "ONLINE" scheduled None None None
                  5000)],
     snd (book_at_once [(alice, nine_online); (bob, nine_online)] clinic))
  /\ List.length
       (referring active 100
          (snd (book_at_once [(alice, nine_online); (bob, nine_online)] clinic)))
     = 2%nat
  /\ fst (book_serially day_before [(alice, nine_online); (bob, nine_online)] clinic)
     = [Json 201 appointment1;
        ErrorJson 400 "Bad Request" "Selected time slot is not available"].
Proof. repeat split. Qed.

(** ** Further properties of the routes and of the middleware *)

(** *** GET /: what a user is shown *)

Lemma list_handler_eq today u query db :
  listAppointments today u query db =
  match validate_list query with
  | Some key => (ValidationError key, db)
  | None =>
      match whereConditions u query with
      | [] => (ErrorJson 500 "Internal Server Error" "Failed to fetch appointments", db)
      | conditions =>
          (Json 200
             (mkListData
                (limit_offset (value_limit query)
                   ((value_page query - 1) * value_limit query)
                   (order_desc (matching today conditions db)))
                (mkPagination (value_page query) (value_limit query)
                   (counted today conditions db)
                   (ceil_div (counted today conditions db) (value_limit query))
                   (value_page query
                    <? ceil_div (counted today conditions db) (value_limit query))
                   (1 <? value_page query))),
           db)
      end
  end.
Proof.
  unfold listAppointments, list_handler. destruct (validate_list query); [reflexivity|].
  simpl. unfold list_queries, bind, where_query, ret.
  destruct (whereConditions u query); reflexivity.
Qed.

Lemma matching_In today conditions db a :
  In a (matching today conditions db) ->
  In a (appointments db)
  /\ exists d, In d (doctors db) /\ doctor_id a = d_id d
               /\ forallb (holds today a d) conditions = true.
Proof.
  unfold matching. intros H.
  apply in_flat_map in H as (a0 & Ha0 & H).
  apply in_flat_map in H as (up & _ & H).
  apply in_flat_map in H as (d & Hd & H).
  apply in_flat_map in H as (ud & _ & H).
  apply in_map_iff in H as (sp & E & H). subst a0.
  apply filter_In in H as (_ & H).
  repeat (apply andb_true_iff in H as (H & ?)).
  split; [exact Ha0|]. exists d. repeat split; auto. lia.
Qed.

Lemma insert_desc_In a b l : In a (insert_desc b l) <-> a = b \/ In a l.
Proof.
  induction l as [|c l IH]; simpl.
  - split; intros [H|H]; auto.
  - destruct (not_before b c); simpl; [|rewrite IH]; split; intros H;
      repeat destruct H as [H|H]; subst; auto.
Qed.

Lemma order_desc_In a l : In a (order_desc l) <-> In a l.
Proof.
  induction l as [|b l IH]; simpl; [tauto|].
  rewrite insert_desc_In, IH. split; intros [H|H]; auto.
Qed.

Lemma firstn_In {A} (x : A) n : forall l, In x (firstn n l) -> In x l.
Proof.
  induction n as [|n IH]; intros [|y l] H; simpl in *; try contradiction.
  destruct H as [H|H]; [now left|right; now apply IH].
Qed.

Lemma skipn_In {A} (x : A) n : forall l, In x (skipn n l) -> In x l.
Proof.
  induction n as [|n IH]; intros [|y l] H; simpl in *; try contradiction; auto.
Qed.

Lemma limit_offset_In {A} (x : A) limit offset l :
  In x (limit_offset limit offset l) -> In x l.
Proof. unfold limit_offset. intros H. eapply skipn_In, firstn_In, H. Qed.

(** X1. Whatever GET / answers with a list, it has not written, and every
    appointment of the list is a row of the table that passes every filter
    asked for: for a patient it is one of the patient's own, for a doctor
    it is with a doctor row of that account, with a status filter it has
    that status, and with upcoming=true it is not before today. *)
Theorem listAppointments_scoped today u query db code data db' :
  listAppointments today u query db = (Json code data, db') ->
  db' = db
  /\ forall a, In a (listed data) ->
       In a (appointments db)
       /\ (role u = "patient" -> patient_id a = id u)
       /\ (role u = "doctor" ->
           exists d, In d (doctors db) /\ doctor_id a = d_id d /\ d_user_id d = id u)
       /\ (forall st, q_status query = Some st -> status a = st)
       /\ (q_upcoming query = Some true -> today <= appointment_date a).
Proof.
  rewrite list_handler_eq. destruct (validate_list query); [discriminate|].
  destruct (whereConditions u query) as [|c0 cs] eqn:Ec; [discriminate|].
  intros H. inversion H; subst code data db'; clear H. split; [reflexivity|].
  simpl. intros a Ha. apply limit_offset_In, order_desc_In, matching_In in Ha.
  destruct Ha as (Ha & d & Hd & Hdoc & Hall). rewrite <- Ec in Hall.
  unfold whereConditions in Hall. rewrite !forallb_app in Hall.
  apply andb_true_iff in Hall as (Hrole & Hrest).
  apply andb_true_iff in Hrest as (Hst & Hup).
  split; [exact Ha|]. split; [|split; [|split]].
  - intros Hr. rewrite Hr in Hrole. simpl in Hrole.
    rewrite andb_true_r in Hrole. lia.
  - intros Hr. rewrite Hr in Hrole. simpl in Hrole.
    rewrite andb_true_r in Hrole. exists d. repeat split; auto. lia.
  - intros st Hq. rewrite Hq in Hst. simpl in Hst. rewrite andb_true_r in Hst.
    destruct (status a), st; simpl in Hst; congruence.
  - intros Hq. rewrite Hq in Hup. simpl in Hup. rewrite andb_true_r in Hup. lia.
Qed.

Lemma listAppointments_scoped_witness :
  listAppointments 19875 alice everything ward = (Json 200 alice_page, ward)
  /\ Forall (fun a => In a (appointments ward) /\ patient_id a = id alice)
       (listed alice_page).
Proof.
  split; [reflexivity|]. apply Forall_forall. intros a Ha.
  destruct (listAppointments_scoped 19875 alice everything ward 200 alice_page ward
              eq_refl) as (_ & H).
  destruct (H a Ha) as (Hin & Hown & _). split; [exact Hin|]. now apply Hown.
Defined.

Lemma ceil_div_bounds total limit :
  1 <= limit ->
  (ceil_div total limit - 1) * limit < total <= ceil_div total limit * limit.
Proof.
  intros Hl. unfold ceil_div.
  pose proof (Z.div_mod (total + limit - 1) limit ltac:(lia)) as E.
  pose proof (Z.mod_pos_bound (total + limit - 1) limit ltac:(lia)) as B.
  nia.
Qed.

Lemma validate_list_bounds query :
  validate_list query = None ->
  1 <= value_page query /\ 1 <= value_limit query <= 50.
Proof.
  unfold validate_list, value_page, value_limit.
  destruct (q_page query) as [p|], (q_limit query) as [l|]; simpl;
    repeat match goal with
           | |- context [if ?c then _ else _] => destruct c eqn:?
           end; intros H; try discriminate; lia.
Qed.

(** X2. When GET / answers with a list: the page number is at least 1 and
    the page size between 1 and 50; the list holds at most one page size of
    appointments; totalPages is the number of pages the count needs, no
    more and no less; hasNextPage says that appointments remain after this
    page, hasPreviousPage that the page is not the first. *)
Theorem listAppointments_pagination today u query db code data db' :
  listAppointments today u query db = (Json code data, db') ->
  let p := pagination data in
  1 <= currentPage p
  /\ 1 <= itemsPerPage p <= 50
  /\ 0 <= totalItems p
  /\ Z.of_nat (List.length (listed data)) <= itemsPerPage p
  /\ (totalPages p - 1) * itemsPerPage p < totalItems p <= totalPages p * itemsPerPage p
  /\ (hasNextPage p = true <-> currentPage p * itemsPerPage p < totalItems p)
  /\ (hasPreviousPage p = true <-> 1 < currentPage p).
Proof.
  rewrite list_handler_eq. destruct (validate_list query) eqn:Hv; [discriminate|].
  destruct (whereConditions u query) as [|c0 cs]; [discriminate|].
  intros H. inversion H; subst code data db'; clear H. simpl.
  destruct (validate_list_bounds query Hv) as (Hp & Hl).
  pose proof (ceil_div_bounds (counted today (c0 :: cs) db) (value_limit query)
                ltac:(lia)) as Hc.
  split; [exact Hp|]. split; [exact Hl|].
  split; [unfold counted; lia|]. split.
  - unfold limit_offset.
    pose proof (firstn_le_length (Z.to_nat (value_limit query))
                  (skipn (Z.to_nat ((value_page query - 1) * value_limit query))
                     (order_desc (matching today (c0 :: cs) db)))).
    lia.
  - split; [exact Hc|]. split; [|apply Z.ltb_lt].
    rewrite Z.ltb_lt. split; intros; nia.
Qed.

Lemma listAppointments_pagination_witness :
  totalPages (pagination alice_page) = 1
  /\ hasNextPage (pagination alice_page) = false
  /\ Z.of_nat (List.length (listed alice_page)) <= 10.
Proof.
  destruct (listAppointments_pagination 19875 alice everything ward 200 alice_page ward
              eq_refl) as (_ & _ & _ & Hlen & _).
  split; [reflexivity|]. split; [reflexivity|]. exact Hlen.
Defined.

(** X3. A user who is neither patient nor doctor (an admin) and asks
    for the list without a status and without upcoming=true is answered 500:
    no condition is pushed and the WHERE clause is empty. With one of the
    two filters the same user is answered with a list. *)
Theorem listAppointments_without_condition today u query db :
  validate_list query = None ->
  role u <> "patient" -> role u <> "doctor" ->
  (q_status query = None /\ q_upcoming query <> Some true ->
   listAppointments today u query db
   = (ErrorJson 500 "Internal Server Error" "Failed to fetch appointments", db))
  /\ (q_status query <> None \/ q_upcoming query = Some true ->
      succeeded (fst (listAppointments today u query db)) = true).
Proof.
  intros Hv Hp Hd. rewrite list_handler_eq, Hv. unfold whereConditions.
  apply String.eqb_neq in Hp, Hd. rewrite Hp, Hd. simpl. split.
  - intros (Hs & Hu). rewrite Hs. destruct (q_upcoming query) as [[|]|];
      try reflexivity. contradiction.
  - intros [Hs|Hu].
    + destruct (q_status query); [reflexivity|contradiction].
    + rewrite Hu. destruct (q_status query); reflexivity.
Qed.

Lemma listAppointments_without_condition_witness :
  listAppointments 19875 root everything ward
  = (ErrorJson 500 "Internal Server Error" "Failed to fetch appointments", ward)
  /\ succeeded
       (fst (listAppointments 19875 root (mkListQuery (Some scheduled) None None None)
               ward)) = true.
Proof.
  split.
  - apply (listAppointments_without_condition 19875 root everything ward eq_refl);
      [discriminate|discriminate|]. split; [reflexivity|discriminate].
  - apply (listAppointments_without_condition 19875 root
             (mkListQuery (Some scheduled) None None None) ward eq_refl);
      [discriminate|discriminate|]. left. discriminate.
Defined.

Lemma not_before_total a b : not_before a b = false -> not_before b a = true.
Proof.
  unfold not_before. intros H. apply orb_false_iff in H as (H1 & H2).
  apply andb_false_iff in H2. apply orb_true_iff.
  destruct (appointment_date a <? appointment_date b) eqn:E; [now left|right].
  apply andb_true_iff. split; [lia|]. destruct H2; lia.
Qed.

Lemma insert_desc_HdRel a b l :
  HdRel in_order b l -> in_order b a -> HdRel in_order b (insert_desc a l).
Proof.
  intros H Hba. destruct l as [|c l]; simpl; [now constructor|].
  destruct (not_before a c); constructor; [exact Hba|]. now apply HdRel_inv in H.
Qed.

Lemma insert_desc_Sorted a l :
  Sorted in_order l -> Sorted in_order (insert_desc a l).
Proof.
  induction 1 as [|b l Hs IH Hhd]; simpl; [repeat constructor|].
  destruct (not_before a b) eqn:E.
  - constructor; [now constructor|]. now constructor.
  - constructor; [exact IH|]. apply insert_desc_HdRel; [exact Hhd|].
    now apply not_before_total.
Qed.

Lemma order_desc_Sorted l : Sorted in_order (order_desc l).
Proof.
  induction l as [|a l IH]; simpl; [constructor|]. now apply insert_desc_Sorted.
Qed.

Lemma skipn_Sorted {A} (R : A -> A -> Prop) n : forall l,
  Sorted R l -> Sorted R (skipn n l).
Proof.
  induction n as [|n IH]; intros [|a l] H; simpl; auto.
  apply IH. now apply Sorted_inv in H.
Qed.

Lemma firstn_Sorted {A} (R : A -> A -> Prop) n : forall l,
  Sorted R l -> Sorted R (firstn n l).
Proof.
  induction n as [|n IH]; intros [|a l] H; simpl; try constructor.
  - apply IH. now apply Sorted_inv in H.
  - apply Sorted_inv in H as (_ & H). destruct l as [|b l], n; simpl; constructor.
    now apply HdRel_inv in H.
Qed.

(** X4. The list GET / answers with is in the order of the query: from
    one appointment to the next the date does not grow, and on one date the
    time does not grow. *)
Theorem listAppointments_in_order today u query db code data db' :
  listAppointments today u query db = (Json code data, db') ->
  Sorted (fun a b =>
            appointment_date b < appointment_date a
            \/ (appointment_date b = appointment_date a
                /\ appointment_time b <= appointment_time a))
    (listed data).
Proof.
  rewrite list_handler_eq. destruct (validate_list query); [discriminate|].
  destruct (whereConditions u query) as [|c0 cs]; [discriminate|].
  intros H. inversion H; subst code data db'; clear H. simpl.
  assert (Hs : Sorted in_order
                 (limit_offset (value_limit query)
                    ((value_page query - 1) * value_limit query)
                    (order_desc (matching today (c0 :: cs) db)))).
  { apply firstn_Sorted, skipn_Sorted, order_desc_Sorted. }
  revert Hs. generalize (limit_offset (value_limit query)
                           ((value_page query - 1) * value_limit query)
                           (order_desc (matching today (c0 :: cs) db))).
  assert (Hrel : forall a b, in_order a b ->
            appointment_date b < appointment_date a
            \/ (appointment_date b = appointment_date a
                /\ appointment_time b <= appointment_time a)).
  { unfold in_order, not_before. intros a b Hab.
    apply orb_true_iff in Hab as [Hab|Hab]; [left; lia|right].
    apply andb_true_iff in Hab. lia. }
  induction 1 as [|a l Hs IH Hhd]; constructor; [exact IH|].
  destruct Hhd; constructor. now apply Hrel.
Qed.

Lemma listAppointments_in_order_witness :
  Sorted (fun a b =>
            appointment_date b < appointment_date a
            \/ (appointment_date b = appointment_date a
                /\ appointment_time b <= appointment_time a))
    (listed alice_page).
Proof.
  exact (listAppointments_in_order 19875 alice everything ward 200 alice_page ward
           eq_refl).
Defined.

(** *** The token middleware *)

Lemma users_by_id_In userId db row rest :
  users_by_id userId db = row :: rest -> In row (users db) /\ u_id row = userId.
Proof.
  intros E. assert (H : In row (users_by_id userId db)) by (rewrite E; now left).
  apply filter_In in H as (H & Hid). split; [exact H|lia].
Qed.

(** X5. [authenticateToken] either answers itself, with a 401 or a 500
    and without writing, or hands the request on with a user that is taken
    from a row of users: the row whose id the verified token carries, which
    is active; the role of the user is the role of that row. *)
Theorem authenticateToken_principal verify {D} authHeader
    (next : Request -> Handler D) db :
  (exists code error message,
     (code = 401 \/ code = 500)
     /\ authenticateToken verify authHeader next db = (ErrorJson code error message, db))
  \/ (exists token row,
        bearer_token authHeader = Some token
        /\ verify token = Decoded (u_id row)
        /\ In row (users db) /\ u_is_active row = true
        /\ authenticateToken verify authHeader next db
           = next (mkRequest (Some (req_user_of row)) None) db).
Proof.
  unfold authenticateToken.
  destruct (bearer_token authHeader) as [token|]; [|left; eauto 6].
  destruct (verify token) as [userId|name] eqn:Ev.
  - destruct (users_by_id userId db) as [|row rest] eqn:Eu; [left; eauto 6|].
    apply users_by_id_In in Eu as (Hin & Hid). subst userId.
    destruct (u_is_active row) eqn:Ea; simpl; [|left; eauto 6].
    right. exists token, row. repeat split; auto.
  - left. destruct (name =? "TokenExpiredError")%string; [eauto 6|].
    destruct (name =? "JsonWebTokenError")%string; eauto 6.
Qed.

(** X6. [optionalAuth] never answers itself. It hands the request on
    with a user exactly when [authenticateToken] would hand it on, and then
    with the same user; when [authenticateToken] would refuse, it hands the
    request on without a user. *)
Theorem optionalAuth_agrees verify {D} authHeader (next : Request -> Handler D) db :
  (exists u,
     optionalAuth verify authHeader next db = next (mkRequest (Some u) None) db
     /\ authenticateToken verify authHeader next db
        = next (mkRequest (Some u) None) db)
  \/ (optionalAuth verify authHeader next db = next (mkRequest None None) db
      /\ exists code error message,
           authenticateToken verify authHeader next db
           = (ErrorJson code error message, db)).
Proof.
  unfold optionalAuth, authenticateToken.
  destruct (bearer_token authHeader) as [token|]; [|right; eauto 6].
  destruct (verify token) as [userId|name].
  - destruct (users_by_id userId db) as [|row rest]; [right; eauto 6|].
    destruct (u_is_active row); simpl; [left; eauto|right; eauto 6].
  - right. split; [reflexivity|].
    destruct (name =? "TokenExpiredError")%string; [eauto|].
    destruct (name =? "JsonWebTokenError")%string; eauto.
Qed.

Lemma split_space_no_space s :
  (forall c, In c (list_ascii_of_string s) -> c <> " "%char) -> split_space s = [s].
Proof.
  induction s as [|c s IH]; intros H; [reflexivity|]. simpl.
  destruct (Ascii.eqb c " ") eqn:E.
  - apply Ascii.eqb_eq in E. destruct (H c (or_introl eq_refl) E).
  - rewrite IH; [reflexivity|]. intros c' Hc'. apply H. now right.
Qed.

(** X7. An Authorization header without a space in it (a bare token, or
    the word Bearer alone) is refused with 401 'Access token is required',
    before the token is verified, whatever the verifier would say. *)
Theorem authenticateToken_needs_two_parts verify {D} header
    (next : Request -> Handler D) db :
  (forall c, In c (list_ascii_of_string header) -> c <> " "%char) ->
  authenticateToken verify (Some header) next db
  = (ErrorJson 401 "Unauthorized" "Access token is required", db).
Proof.
  intros H. unfold authenticateToken, bearer_token.
  rewrite (split_space_no_space header H). simpl.
  destruct (is_empty header); reflexivity.
Qed.

Lemma authenticateToken_needs_two_parts_witness :
  authenticateToken toy_verify (Some "alice")
    (fun req db => (Json 200 (user req), db)) ward
  = (ErrorJson 401 "Unauthorized" "Access token is required", ward)
  /\ authenticateToken toy_verify (Some "Bearer alice")
       (fun req db => (Json 200 (user req), db)) ward
     = (Json 200 (Some alice), ward).
Proof.
  split; [|reflexivity].
  apply authenticateToken_needs_two_parts.
  intros c Hc. simpl in Hc.
  repeat (destruct Hc as [<-|Hc]; [discriminate|]). destruct Hc.
Defined.

(** *** Roles *)

Lemma array_includes_In l x : array_includes l x = true <-> In x l.
Proof.
  unfold array_includes. rewrite existsb_exists. split.
  - intros (y & Hy & E). apply String.eqb_eq in E. now subst.
  - intros H. exists x. split; [exact H|apply String.eqb_refl].
Qed.

(** X8. For a request with a user, [authorize] hands on exactly when the
    role of the user is among the allowed roles, and answers 403 with the
    list of these roles otherwise; [requirePatient] and [requireAdmin] hand
    on exactly when [authorize] does for the one role 'patient',
    respectively 'admin'. *)
Theorem authorize_roles {D} allowedRoles req u (next : Request -> Handler D) db :
  user req = Some u ->
  (In (role u) allowedRoles -> authorize allowedRoles req next db = next req db)
  /\ (~ In (role u) allowedRoles ->
      authorize allowedRoles req next db
      = (ErrorJson 403 "Forbidden"
           ("Access denied. Required roles: " ++ join ", " allowedRoles), db))
  /\ (In (role u) ["patient"] -> requirePatient req next db = next req db)
  /\ (~ In (role u) ["patient"] ->
      requirePatient req next db
      = (ErrorJson 403 "Forbidden" "Patient access required", db))
  /\ (In (role u) ["admin"] -> requireAdmin req next db = next req db)
  /\ (~ In (role u) ["admin"] ->
      requireAdmin req next db = (ErrorJson 403 "Forbidden" "Admin access required", db)).
Proof.
  intros Hu. unfold authorize, requirePatient, requireAdmin. rewrite Hu.
  split; [|split; [|split; [|split; [|split]]]].
  - intros H. apply array_includes_In in H. now rewrite H.
  - intros H. destruct (array_includes allowedRoles (role u)) eqn:E; [|reflexivity].
    apply array_includes_In in E. contradiction.
  - intros [<-|[]]. reflexivity.
  - intros H. destruct (role u =? "patient")%string eqn:E; [|reflexivity].
    apply String.eqb_eq in E. exfalso. apply H. left. now symmetry.
  - intros [<-|[]]. reflexivity.
  - intros H. destruct (role u =? "admin")%string eqn:E; [|reflexivity].
    apply String.eqb_eq in E. exfalso. apply H. left. now symmetry.
Qed.

Lemma authorize_roles_witness :
  authorize ["doctor"; "admin"] (authenticated alice)
    (fun req db => (Json 200 tt, db)) ward
  = (ErrorJson 403 "Forbidden" "Access denied. Required roles: doctor, admin", ward)
  /\ authorize ["doctor"; "admin"] (authenticated root)
       (fun req db => (Json 200 tt, db)) ward
     = (Json 200 tt, ward).
Proof.
  destruct (authorize_roles ["doctor"; "admin"] (authenticated alice) alice
              (fun req db => (Json 200 tt, db)) ward eq_refl) as (_ & Hout & _).
  destruct (authorize_roles ["doctor"; "admin"] (authenticated root) root
              (fun req db => (Json 200 tt, db)) ward eq_refl) as (Hin & _).
  split.
  - apply Hout. intros [H|[H|[]]]; discriminate.
  - apply Hin. right. now left.
Defined.

(** *** Booking, reading back, cancelling and booking again *)


Lemma bookAppointment_inv now u body db code appointment db' :
  bookAppointment now u body db = (Json code appointment, db') ->
  role u = "patient" /\ validate_booking now body = None
  /\ exists doctor du slotId,
       In (doctor, du) (bookable_doctors (doctorId body) db)
       /\ In slotId (key_slots body db)
       /\ appointment
          = mkAppointment (appointments_id_seq db) (id u) (doctorId body) slotId
              (date_of_instant (appointmentDate body))
              (time_of_string (appointmentTime body))
              (consultationMode body) scheduled (reasonForVisit body) None None
              (d_consultation_fee doctor)
       /\ db' = after_booking u body doctor slotId db.
Proof.
  unfold bookAppointment, requirePatient. simpl.
  destruct (role u =? "patient")%string eqn:Er; simpl; [|discriminate].
  apply String.eqb_eq in Er.
  destruct (validate_booking now body) eqn:Hv.
  { unfold book_handler. rewrite Hv. discriminate. }
  rewrite (book_handler_valid _ _ _ _ Hv), book_checks_eq.
  destruct (bookable_doctors (doctorId body) db) as [|[doctor du] rest] eqn:E.
  { rewrite book_catch_not_found. discriminate. }
  destruct (array_includes (d_consultation_modes doctor) (consultationMode body)).
  2:{ rewrite book_catch_not_support. discriminate. }
  unfold key_slots.
  destruct (free_slots _ _ _ db) as [|sid more] eqn:F.
  { rewrite book_catch_slot. discriminate. }
  intros H. inversion H; subst code appointment db'; clear H.
  split; [exact Er|]. split; [reflexivity|].
  exists doctor, du, sid. split; [now left|]. split; [now left|]. split; reflexivity.
Qed.

Lemma map_if_none {A} (p : A -> bool) (f : A -> A) (l : list A) :
  (forall x, In x l -> p x = false) -> map (fun x => if p x then f x else x) l = l.
Proof.
  intros H. rewrite <- (map_id l) at 2. apply map_ext_in. intros x Hx.
  now rewrite (H x Hx).
Qed.

(** X9. Booking and then cancelling gives the slot back: when a booking
    succeeds on a database in agreement (doctor ids being keys), the
    patient's DELETE of the new appointment succeeds, the slot table is
    again what it was before the booking, and the appointments are the old
    ones followed by the new one, cancelled. *)
Theorem book_then_cancel now u body db code appointment db' :
  bookAppointment now u body db = (Json code appointment, db') ->
  coherent db -> NoDup (map d_id (doctors db)) ->
  fst (cancelAppointment u (a_id appointment) db') = Json 200 tt
  /\ doctor_time_slots (snd (cancelAppointment u (a_id appointment) db'))
     = doctor_time_slots db
  /\ appointments (snd (cancelAppointment u (a_id appointment) db'))
     = appointments db ++ [set_status cancelled appointment].
Proof.
  intros Hbook Hco Hnd.
  apply bookAppointment_inv in Hbook
    as (Hrole & _ & doctor & du & slotId & Hdoc & Hslot & -> & ->).
  pose proof (after_booking_coherent u body doctor slotId db Hco Hslot) as Hco'.
  pose proof (proj1 (bookable_doctors_In _ _ _ _) Hdoc) as (Hd & _ & _ & Hid & _ & _).
  set (appointment :=
         mkAppointment (appointments_id_seq db) (id u) (doctorId body) slotId
           (date_of_instant (appointmentDate body))
           (time_of_string (appointmentTime body)) (consultationMode body)
           scheduled (reasonForVisit body) None None (d_consultation_fee doctor)).
  rewrite cancelAppointment_eq.
  rewrite (appointments_with_doctor_loaded (a_id appointment)
             (after_booking u body doctor slotId db) appointment doctor);
    [|apply Hco'|exact Hnd|apply in_or_app; right; now left|reflexivity|exact Hd
     |now symmetry].
  assert (Hcan : canCancel u appointment (d_user_id doctor) = true).
  { apply canCancel_spec. left. split; [exact Hrole|reflexivity]. }
  rewrite Hcan. simpl. split; [reflexivity|].
  pose proof Hco as (_ & HF & _).
  apply free_slots_In in Hslot as (s0 & Hs0 & Hid0 & _ & _ & _ & Hfree0).
  split.
  - rewrite map_map. rewrite <- (map_id (doctor_time_slots db)) at 2.
    apply map_ext_in. intros s Hs.
    destruct (s_id s =? slotId) eqn:E; simpl; rewrite E; [|reflexivity].
    assert (Hf : is_booked s = false).
    { apply (coherent_same_flag db s0 s Hco Hs0 Hs); [lia|exact Hfree0]. }
    destruct s; simpl in *; subst; reflexivity.
  - rewrite map_app. simpl. rewrite Z.eqb_refl. f_equal.
    apply map_if_none. intros a Ha. specialize (HF a Ha). lia.
Qed.

Lemma clinic_coherent : coherent clinic.
Proof.
  apply coherent_fresh; [reflexivity|]. intros s [<-|[]]. reflexivity.
Qed.

Lemma clinic_doctor_keys : NoDup (map d_id (doctors clinic)).
Proof. repeat constructor. intros []. Qed.

Lemma book_then_cancel_witness :
  fst (cancelAppointment alice 1 booked) = Json 200 tt
  /\ doctor_time_slots (snd (cancelAppointment alice 1 booked))
     = doctor_time_slots clinic.
Proof.
  destruct (book_then_cancel day_before alice nine_online clinic 201 appointment1 booked
              eq_refl clinic_coherent clinic_doctor_keys) as (H1 & H2 & _).
  split; [exact H1|exact H2].
Defined.



Lemma appointment_details_intro db a u_patient d u_doctor s :
  In a (appointments db) -> In u_patient (users db) -> In d (doctors db) ->
  In u_doctor (users db) -> In s (specialties db) ->
  patient_id a = u_id u_patient -> doctor_id a = d_id d ->
  d_user_id d = u_id u_doctor -> d_specialty_id d = sp_id s ->
  In a (appointment_details (a_id a) db).
Proof.
  intros Ha Hup Hd Hud Hs E1 E2 E3 E4. unfold appointment_details.
  apply in_flat_map. exists a. split; [exact Ha|].
  apply in_flat_map. exists u_patient. split; [exact Hup|].
  apply in_flat_map. exists d. split; [exact Hd|].
  apply in_flat_map. exists u_doctor. split; [exact Hud|].
  apply in_map_iff. exists s. split; [reflexivity|].
  apply filter_In. split; [exact Hs|].
  repeat (apply andb_true_iff; split); lia.
Qed.

(** When ids are keys, the query of GET /:id gives the appointment of that
    id first, provided the rows it joins are there. *)
Lemma appointment_details_head db a u_patient d u_doctor s :
  NoDup (map a_id (appointments db)) ->
  In a (appointments db) -> In u_patient (users db) -> In d (doctors db) ->
  In u_doctor (users db) -> In s (specialties db) ->
  patient_id a = u_id u_patient -> doctor_id a = d_id d ->
  d_user_id d = u_id u_doctor -> d_specialty_id d = sp_id s ->
  exists rest, appointment_details (a_id a) db = a :: rest.
Proof.
  intros Hnd Ha Hup Hd Hud Hs E1 E2 E3 E4.
  pose proof (appointment_details_intro db a u_patient d u_doctor s
                Ha Hup Hd Hud Hs E1 E2 E3 E4) as Hin.
  destruct (appointment_details (a_id a) db) as [|x rest] eqn:E; [destruct Hin|].
  assert (Hx : In x (appointment_details (a_id a) db)) by (rewrite E; now left).
  apply appointment_details_In in Hx as (Hx & Hid).
  rewrite (NoDup_key_eq a_id (appointments db) x a Hnd Hx Ha Hid). eauto.
Qed.

(** X11. What is booked can be read back: after a booking that succeeds
    (appointment ids being below the sequence and keys, the account of the
    patient being a row of users, the doctor having a specialty row), GET
    /:id with the id of the answer gives the patient the appointment of the
    answer, and writes nothing. *)
Theorem book_then_get now u body db code appointment db' :
  bookAppointment now u body db = (Json code appointment, db') ->
  NoDup (map a_id (appointments db)) ->
  (forall a, In a (appointments db) -> a_id a < appointments_id_seq db) ->
  (exists row, In row (users db) /\ u_id row = id u) ->
  (forall d, In d (doctors db) -> d_id d = doctorId body ->
             exists s, In s (specialties db) /\ sp_id s = d_specialty_id d) ->
  getAppointment u (a_id appointment) db' = (Json 200 appointment, db').
Proof.
  intros Hbook Hnd Hfresh (row & Hrow & Hrid) Hspec.
  apply bookAppointment_inv in Hbook
    as (Hrole & _ & doctor & du & slotId & Hdoc & _ & -> & ->).
  apply bookable_doctors_In in Hdoc as (Hd & Hdu & Edu & Hid & _ & _).
  destruct (Hspec doctor Hd Hid) as (s & Hs & Es).
  set (appointment :=
         mkAppointment (appointments_id_seq db) (id u) (doctorId body) slotId
           (date_of_instant (appointmentDate body))
           (time_of_string (appointmentTime body)) (consultationMode body)
           scheduled (reasonForVisit body) None None (d_consultation_fee doctor)).
  assert (Hkeys : NoDup (map a_id
                           (appointments (after_booking u body doctor slotId db)))).
  { unfold after_booking. simpl. rewrite map_app. simpl.
    apply NoDup_app; [exact Hnd|repeat constructor; intros []|].
    intros k Hk [<-|[]]. apply in_map_iff in Hk as (a & Ea & Ha).
    specialize (Hfresh a Ha). lia. }
  assert (Hnew : In appointment
                   (appointments (after_booking u body doctor slotId db))).
  { apply in_or_app. right. now left. }
  destruct (appointment_details_head (after_booking u body doctor slotId db)
              appointment row doctor du s Hkeys Hnew Hrow Hd Hdu Hs
              (eq_sym Hrid) (eq_sym Hid) Edu (eq_sym Es)) as (rest & E).
  apply (proj1 (getAppointment_patient_admin u (a_id appointment)
                  (after_booking u body doctor slotId db) appointment rest E)).
  left. split; [exact Hrole|reflexivity].
Qed.

Lemma book_then_get_witness :
  getAppointment alice 1 booked = (Json 200 appointment1, booked).
Proof.
  apply (book_then_get day_before alice nine_online clinic 201 appointment1 booked
           eq_refl).
  - constructor.
  - intros a [].
  - exists (mkUser 1 "Alice" "Martin" "patient" true). split; [now left|reflexivity].
  - intros d [<-|[]] _. exists (mkSpecialty 1 "Cardiologie"). split; [now left|reflexivity].
Defined.

(** *** PUT /:id/status: who is refused, and what a success writes *)



(** X13. A status update that succeeds answers 200 and writes exactly
    this: in every appointment of the id the status becomes the one asked
    for, the notes and the prescription are replaced when the body gives
    them and kept otherwise, and id, patient, doctor, slot, date, time and
    fee stay; every other appointment stays as it is; one notification of
    type 'status_update' about the appointment is appended, for the patient
    of an appointment of that id; no slot, user, doctor or specialty row
    changes. *)
Theorem updateStatus_writes u appointmentId body db code data db' :
  updateStatus u appointmentId body db = (Json code data, db') ->
  code = 200
  /\ doctor_time_slots db' = doctor_time_slots db
  /\ users db' = users db /\ doctors db' = doctors db
  /\ specialties db' = specialties db
  /\ (exists a, In a (appointments db) /\ a_id a = appointmentId
                /\ notifications db'
                   = notifications db
                     ++ [mkNotification (notifications_id_seq db) (patient_id a)
                           "status_update" appointmentId])
  /\ List.length (appointments db') = List.length (appointments db)
  /\ forall n a a',
       nth_error (appointments db) n = Some a ->
       nth_error (appointments db') n = Some a' ->
       a_id a' = a_id a /\ patient_id a' = patient_id a /\ doctor_id a' = doctor_id a
       /\ slot_id a' = slot_id a /\ appointment_date a' = appointment_date a
       /\ appointment_time a' = appointment_time a
       /\ consultation_fee a' = consultation_fee a
       /\ (a_id a <> appointmentId -> a' = a)
       /\ (a_id a = appointmentId ->
           status a' = new_status body
           /\ notes a' = match truthy (new_notes body) with
                         | Some n => Some n
                         | None => notes a
                         end
           /\ prescription a' = match truthy (new_prescription body) with
                                | Some p => Some p
                                | None => prescription a
                                end).
Proof.
  unfold updateStatus, requireDoctor. simpl.
  destruct (negb (role u =? "doctor")%string); [discriminate|].
  destruct (filter (fun d => d_user_id d =? id u) (doctors db)) as [|doctor rest];
    [discriminate|].
  destruct (negb (d_is_available doctor)); [discriminate|].
  destruct (validate_status body) eqn:Hv.
  { unfold status_handler. rewrite Hv. discriminate. }
  rewrite (status_handler_eq _ _ _ _ _ Hv).
  destruct (appointments_with_doctor appointmentId db) as [|[a0 duid] more] eqn:E;
    [discriminate|].
  destruct (duid =? id u); [|discriminate].
  intros H. inversion H; subst code data db'; clear H.
  assert (Hin : In (a0, duid) (appointments_with_doctor appointmentId db))
    by (rewrite E; now left).
  apply appointments_with_doctor_In in Hin as (Ha0 & Hid0).
  split; [reflexivity|]. unfold after_status. simpl.
  split; [reflexivity|]. split; [reflexivity|]. split; [reflexivity|].
  split; [reflexivity|]. split; [exists a0; auto|]. split; [apply length_map|].
  intros n a a' Hn Hn'. rewrite nth_error_map, Hn in Hn'. simpl in Hn'.
  inversion Hn'; subst a'; clear Hn'.
  destruct (a_id a =? appointmentId) eqn:Eq.
  - apply Z.eqb_eq in Eq.
    destruct (truthy (new_notes body)), (truthy (new_prescription body));
      repeat split; auto; intros; contradiction.
  - apply Z.eqb_neq in Eq. repeat split; auto; intros; contradiction.
Qed.

Lemma updateStatus_writes_witness :
  doctor_time_slots
    (snd (updateStatus drx 1 (mkStatusBody confirmed (Some "bring the file") None)
            booked))
  = doctor_time_slots booked
  /\ map (fun a => (status a, notes a))
       (appointments
          (snd (updateStatus drx 1 (mkStatusBody confirmed (Some "bring the file") None)
                  booked)))
     = [(confirmed, Some "bring the file")].
Proof.
  destruct (updateStatus_writes drx 1 (mkStatusBody confirmed (Some "bring the file") None)
              booked 200 _ _ eq_refl) as (_ & Hslots & _).
  split; [exact Hslots|reflexivity].
Defined.


(** *** What no route does *)

Lemma slot_keys_map (f : SlotRow -> SlotRow) (l : list SlotRow) :
  (forall s, slot_key (f s) = slot_key s) -> map slot_key (map f l) = map slot_key l.
Proof. intros H. rewrite map_map. now apply map_ext. Qed.

Lemma ids_map (f : AppointmentRow -> AppointmentRow) (l : list AppointmentRow) :
  (forall a, a_id (f a) = a_id a) -> map a_id (map f l) = map a_id l.
Proof. intros H. rewrite map_map. now apply map_ext. Qed.

Lemma step_append_only db e :
  exists more_ids more_notifications,
    map a_id (appointments (step db e)) = map a_id (appointments db) ++ more_ids
    /\ notifications (step db e) = notifications db ++ more_notifications
    /\ map slot_key (doctor_time_slots (step db e))
       = map slot_key (doctor_time_slots db)
    /\ users (step db e) = users db
    /\ specialties (step db e) = specialties db.
Proof.
  destruct e as [now u body|u i|u i body|u i|rows]; simpl.
  - destruct (bookAppointment_db now u body db) as [->|(doctor & slotId & _ & ->)].
    + exists [], []. rewrite !app_nil_r. repeat split.
    + eexists. eexists. unfold after_booking. simpl. rewrite map_app.
      split; [reflexivity|]. split; [reflexivity|]. split; [|split; reflexivity].
      apply slot_keys_map. intros s. destruct (s_id s =? slotId); reflexivity.
  - rewrite getAppointment_db. exists [], []. rewrite !app_nil_r. repeat split.
  - destruct (updateStatus_db u i body db) as [->|(patient & ->)].
    + exists [], []. rewrite !app_nil_r. repeat split.
    + exists []. eexists. unfold after_status. simpl. rewrite app_nil_r.
      split; [|repeat split]. apply ids_map. intros a.
      destruct (a_id a =? i); [apply updated_row_keeps|reflexivity].
  - destruct (cancelAppointment_db u i db) as [->|(slotId & recipient & ->)].
    + exists [], []. rewrite !app_nil_r. repeat split.
    + exists []. eexists. unfold after_cancel. simpl. rewrite app_nil_r.
      split; [|split; [reflexivity|split; [|split; reflexivity]]].
      * apply ids_map. intros a. destruct (a_id a =? i); reflexivity.
      * apply slot_keys_map. intros s. destruct (s_id s =? slotId); reflexivity.
  - exists [], []. rewrite !app_nil_r. repeat split.
Qed.

(** X14. Over any history of calls of the four routes (and of rewrites of
    the doctors table): no appointment is deleted or renumbered, the ids of
    the table only grow at the end; no notification is removed or altered,
    the table only grows at the end; no slot row is created, deleted or
    moved to another doctor, date or time; users and specialties are never
    written. *)
Theorem run_append_only events db :
  exists more_ids more_notifications,
    map a_id (appointments (run events db)) = map a_id (appointments db) ++ more_ids
    /\ notifications (run events db) = notifications db ++ more_notifications
    /\ map slot_key (doctor_time_slots (run events db))
       = map slot_key (doctor_time_slots db)
    /\ users (run events db) = users db
    /\ specialties (run events db) = specialties db.
Proof.
  revert db. induction events as [|e events IH]; intros db.
  - exists [], []. rewrite !app_nil_r. repeat split.
  - change (run (e :: events) db) with (run events (step db e)).
    destruct (IH (step db e)) as (i2 & n2 & A2 & N2 & S2 & U2 & P2).
    destruct (step_append_only db e) as (i1 & n1 & A1 & N1 & S1 & U1 & P1).
    exists (i1 ++ i2), (n1 ++ n2).
    rewrite A2, A1, N2, N1, S2, S1, U2, U1, P2, P1, !app_assoc. repeat split.
Qed.

(** *** What a booked appointment is *)

Lemma in_range_bounds lo hi c :
  in_range lo hi c = true ->
  (N_of_ascii lo <= N_of_ascii c <= N_of_ascii hi)%N.
Proof.
  unfold in_range. intros H. apply andb_true_iff in H as (H1 & H2).
  apply N.leb_le in H1, H2. split; assumption.
Qed.

(** A string that matches the pattern is cast to a minute of the day. *)
Lemma time_pattern_minutes s :
  time_pattern s = true -> 0 <= time_of_string s < 1440.
Proof.
  intros H. unfold time_pattern in H. crack H.
  all: cbv beta iota zeta delta [time_of_string].
  all: repeat match goal with
         | |- context [digit (Ascii ?a ?b ?c ?d ?e ?f ?g ?h)] =>
             is_var h; generalize dependent (Ascii a b c d e f g h)
         end.
  all: intros.
  all: repeat match goal with
         | H : (_ && _)%bool = true |- _ => apply andb_true_iff in H as (? & ?)
         | H : (_ || _)%bool = true |- _ => apply orb_true_iff in H as [?|?]
         | H : in_range _ _ _ = true |- _ => apply in_range_bounds in H
         | H : Ascii.eqb _ _ = true |- _ => apply Ascii.eqb_eq in H; subst
         end.
  all: unfold digit; simpl N_of_ascii in *; lia.
Qed.

Lemma validate_booking_inv now body :
  validate_booking now body = None ->
  0 < doctorId body /\ now <= appointmentDate body
  /\ time_pattern (appointmentTime body) = true
  /\ (consultationMode body = "ONLINE" \/ consultationMode body = "OFFLINE")
  /\ optional_string_max 500 (reasonForVisit body) = true.
Proof.
  unfold validate_booking. intros H.
  destruct (0 <? doctorId body) eqn:E1; cbn [negb] in H; [|discriminate H].
  destruct (now <=? appointmentDate body) eqn:E2; cbn [negb] in H; [|discriminate H].
  destruct (time_pattern (appointmentTime body)) eqn:E3; cbn [negb] in H; [|discriminate H].
  destruct (array_includes ["ONLINE"; "OFFLINE"] (consultationMode body)) eqn:E4;
    cbn [negb] in H; [|discriminate H].
  destruct (optional_string_max 500 (reasonForVisit body)) eqn:E5; cbn [negb] in H;
    [|discriminate H].
  split; [lia|]. split; [lia|]. split; [reflexivity|]. split; [|reflexivity].
  apply array_includes_In in E4. destruct E4 as [E|[E|[]]]; auto.
Qed.

(** X15. An appointment that a booking returns is well formed: its day
    is not before the day of the server time, its time is a minute of the
    day (0 to 1439), its mode is ONLINE or OFFLINE and one the doctor row
    offers, its doctor id is positive, and a reason, when there is one, is
    not empty and has at most 500 characters. *)
Theorem booked_appointment_well_formed now u body db code appointment db' :
  bookAppointment now u body db = (Json code appointment, db') ->
  date_of_instant now <= appointment_date appointment
  /\ 0 <= appointment_time appointment < 1440
  /\ (consultation_mode appointment = "ONLINE"
      \/ consultation_mode appointment = "OFFLINE")
  /\ (exists d, In d (doctors db) /\ d_id d = doctor_id appointment
                /\ In (consultation_mode appointment) (d_consultation_modes d))
  /\ 0 < doctor_id appointment
  /\ match reason_for_visit appointment with
     | Some reason => reason <> EmptyString /\ Z.of_nat (String.length reason) <= 500
     | None => True
     end.
Proof.
  intros Hbook. pose proof Hbook as Hshape.
  apply bookAppointment_inv in Hshape
    as (_ & Hv & doctor & du & slotId & Hdoc & _ & -> & _).
  apply validate_booking_inv in Hv as (Hd & Hnow & Htime & Hmode & Hreason).
  simpl. split.
  { unfold date_of_instant, ms_per_day. apply Z.div_le_mono; lia. }
  split; [now apply time_pattern_minutes|]. split; [exact Hmode|].
  split.
  { revert Hbook. unfold bookAppointment, requirePatient. simpl.
    destruct (negb (role u =? "patient")%string); [discriminate|].
    destruct (validate_booking now body) eqn:Hv'.
    { unfold book_handler. rewrite Hv'. discriminate. }
    rewrite (book_handler_valid _ _ _ _ Hv'), book_checks_eq.
    destruct (bookable_doctors (doctorId body) db) as [|[d0 du0] rest] eqn:E.
    { rewrite book_catch_not_found. discriminate. }
    destruct (array_includes (d_consultation_modes d0) (consultationMode body)) eqn:Em.
    2:{ rewrite book_catch_not_support. discriminate. }
    intros _. exists d0.
    assert (Hin : In (d0, du0) (bookable_doctors (doctorId body) db))
      by (rewrite E; now left).
    apply bookable_doctors_In in Hin as (Hd0 & _ & _ & Hid0 & _).
    split; [exact Hd0|]. split; [exact Hid0|]. now apply array_includes_In. }
  split; [exact Hd|].
  destruct (reasonForVisit body) as [reason|]; [|exact I].
  simpl in Hreason. apply andb_true_iff in Hreason as (Hne & Hlen).
  split; [|lia]. intros ->. discriminate.
Qed.

Lemma booked_appointment_well_formed_witness :
  date_of_instant day_before <= appointment_date appointment1
  /\ 0 <= appointment_time appointment1 < 1440.
Proof.
  destruct (booked_appointment_well_formed day_before alice nine_online clinic 201
              appointment1 booked eq_refl) as (H1 & H2 & _).
  split; [exact H1|exact H2].
Defined.

(** *** DELETE /:id and GET /:id: every answer *)


(** X17. GET /:id, for the appointment of an id that is a key and whose
    joined rows (patient account, doctor, doctor account, specialty) are
    there: the patient of the appointment and every admin are given the
    appointment; everyone else, every doctor included, is answered 403; in
    both cases nothing is written. *)
Theorem getAppointment_access u db a u_patient d u_doctor s :
  NoDup (map a_id (appointments db)) ->
  In a (appointments db) -> In u_patient (users db) -> In d (doctors db) ->
  In u_doctor (users db) -> In s (specialties db) ->
  patient_id a = u_id u_patient -> doctor_id a = d_id d ->
  d_user_id d = u_id u_doctor -> d_specialty_id d = sp_id s ->
  ((role u = "patient" /\ patient_id a = id u) \/ role u = "admin" ->
   getAppointment u (a_id a) db = (Json 200 a, db))
  /\ (~ ((role u = "patient" /\ patient_id a = id u) \/ role u = "admin") ->
      getAppointment u (a_id a) db
      = (ErrorJson 403 "Forbidden"
           "You do not have permission to view this appointment", db)).
Proof.
  intros Hnd Ha Hup Hd Hud Hs E1 E2 E3 E4.
  destruct (appointment_details_head db a u_patient d u_doctor s
              Hnd Ha Hup Hd Hud Hs E1 E2 E3 E4) as (rest & E).
  unfold getAppointment, get_handler, select. simpl. rewrite E.
  unfold hasAccess. simpl. rewrite andb_false_r, orb_false_r. split.
  - intros [[Hr Hp]|Hr]; rewrite Hr; simpl.
    + replace (patient_id a =? id u) with true by lia. reflexivity.
    + reflexivity.
  - intros Hno.
    destruct (((role u =? "patient")%string && (patient_id a =? id u))
              || (role u =? "admin")%string) eqn:Eacc; [|reflexivity].
    exfalso. apply Hno. apply orb_true_iff in Eacc as [Eacc|Eacc].
    + apply andb_true_iff in Eacc as (Hr & Hp). apply String.eqb_eq in Hr.
      left. split; [exact Hr|lia].
    + apply String.eqb_eq in Eacc. now right.
Qed.

Lemma getAppointment_access_witness :
  getAppointment bob 1 booked
  = (ErrorJson 403 "Forbidden" "You do not have permission to view this appointment",
     booked)
  /\ getAppointment root 1 booked = (Json 200 appointment1, booked).
Proof.
  assert (Hnd : NoDup (map a_id (appointments booked)))
    by (repeat constructor; intros []).
  destruct (getAppointment_access bob booked appointment1
              (mkUser 1 "Alice" "Martin" "patient" true) doctor10
              (mkUser 2 "Xavier" "Roux" "doctor" true) (mkSpecialty 1 "Cardiologie")
              Hnd (or_introl eq_refl) (or_introl eq_refl) (or_introl eq_refl)
              (or_intror (or_introl eq_refl)) (or_introl eq_refl)
              eq_refl eq_refl eq_refl eq_refl) as (_ & Hbob).
  destruct (getAppointment_access root booked appointment1
              (mkUser 1 "Alice" "Martin" "patient" true) doctor10
              (mkUser 2 "Xavier" "Roux" "doctor" true) (mkSpecialty 1 "Cardiologie")
              Hnd (or_introl eq_refl) (or_introl eq_refl) (or_introl eq_refl)
              (or_intror (or_introl eq_refl)) (or_introl eq_refl)
              eq_refl eq_refl eq_refl eq_refl) as (Hroot & _).
  split.
  - apply Hbob. intros [[_ H]|H]; discriminate.
  - apply Hroot. now right.
Defined.

(** *** One active appointment for a slot *)

Lemma run_keeps_coherent events : forall db,
  forallb no_status_update events = true -> coherent db -> coherent (run events db).
Proof.
  induction events as [|e events IH]; intros db Hev Hco; [exact Hco|].
  simpl in Hev. apply andb_true_iff in Hev as (He & Hev).
  change (run (e :: events) db) with (run events (step db e)).
  apply IH; [exact Hev|].
  destruct e as [now u body|u i|u i body|u i|rows]; simpl.
  - now apply bookAppointment_coherent.
  - now rewrite getAppointment_db.
  - discriminate.
  - now apply cancelAppointment_coherent.
  - exact Hco.
Qed.

(** X18. No double booking through bookings and cancellations: starting
    from a database in agreement, after any history of bookings, reads and
    DELETE cancellations (and rewrites of the doctors table), two active
    appointments never refer to the same slot. *)
Theorem one_active_appointment_per_slot events db a b :
  forallb no_status_update events = true -> coherent db ->
  In a (appointments (run events db)) -> In b (appointments (run events db)) ->
  active a = true -> active b = true -> slot_id a = slot_id b -> a = b.
Proof.
  intros Hev Hco Ha Hb Hacta Hactb Hslot.
  pose proof (run_keeps_coherent events db Hev Hco) as (_ & _ & HA & HB & _).
  destruct (HA a Ha Hacta) as (s & Hs & Es & Bs).
  apply (filter_single _ (appointments (run events db)) a b (HB s Hs Bs)); auto.
  - rewrite Es, Z.eqb_refl. now apply active_non_cancelled.
  - rewrite Es, Hslot, Z.eqb_refl. now apply active_non_cancelled.
Qed.

Lemma one_active_appointment_per_slot_witness :
  List.length
    (filter active
       (appointments
          (run [Book day_before alice nine_online; Book day_before bob nine_online;
                Cancel alice 1; Book day_before bob nine_online]
             clinic)))
  = 1%nat
  /\ Forall (fun b => active b = true -> slot_id b = 100 ->
                      b = mkAppointment 2 4 10 100 19875 540 "ONLINE" scheduled None
                            None None 5000)
       (appointments
          (run [Book day_before alice nine_online; Book day_before bob nine_online;
                Cancel alice 1; Book day_before bob nine_online]
             clinic)).
Proof.
  split; [reflexivity|]. apply Forall_forall. intros b Hb Hact Hslot. symmetry.
  apply (one_active_appointment_per_slot
           [Book day_before alice nine_online; Book day_before bob nine_online;
            Cancel alice 1; Book day_before bob nine_online]
           clinic _ b eq_refl clinic_coherent); auto.
  right. now left.
Defined.

(** *** Concrete runs of the properties above *)

Lemma booked_coherent : coherent booked.
Proof.
  apply (after_booking_coherent alice nine_online doctor10 100 clinic clinic_coherent).
  now left.
Qed.

Lemma cancelAppointment_notifies_witness :
  notifications (snd (cancelAppointment alice 1 booked))
  = notifications booked ++ [mkNotification 3 2 "cancellation" 1].
Proof.
  apply (cancelAppointment_notifies alice 1 booked appointment1 doctor10).
  - repeat constructor. intros [].
  - repeat constructor. intros [].
  - now left.
  - reflexivity.
  - now left.
  - reflexivity.
  - reflexivity.
Defined.

Lemma updateStatus_coherent_witness :
  coherent (snd (updateStatus drx 1 (mkStatusBody completed None None) booked)).
Proof.
  apply (updateStatus_coherent drx 1 (mkStatusBody completed None None) booked
           booked_coherent).
  - intros a [<-|[]] _. reflexivity.
  - discriminate.
Defined.

Lemma run_coherent_witness :
  consistent
    (run [Book day_before alice nine_online; Get bob 1; Cancel root 1;
          Book day_before bob nine_online; Cancel alice 2]
       clinic).
Proof.
  apply (run_coherent
           [Book day_before alice nine_online; Get bob 1; Cancel root 1;
            Book day_before bob nine_online; Cancel alice 2]
           clinic eq_refl clinic_coherent).
Defined.


(** *** GET /: the count and the pages *)

Lemma flat_map_one_key {A B} (key : A -> Z) (k : Z) (f : A -> list B) (n : nat)
    (l : list A) :
  NoDup (map key l) ->
  (forall x, In x l -> (List.length (f x) <= n)%nat) ->
  (forall x, In x l -> key x <> k -> f x = []) ->
  (List.length (flat_map f l) <= n)%nat.
Proof.
  induction l as [|y l IH]; intros Hnd Hle Hnil; simpl; [lia|].
  simpl in Hnd. inversion Hnd as [|k0 ks Hnotin Hnd']; subst.
  rewrite length_app. destruct (Z.eq_dec (key y) k) as [E|E].
  - rewrite (flat_map_nil_forall f l).
    + specialize (Hle y (or_introl eq_refl)). simpl. lia.
    + intros x Hx. apply Hnil; [now right|].
      intros E'. apply Hnotin. rewrite E, <- E'. now apply in_map.
  - rewrite (Hnil y (or_introl eq_refl) E). simpl.
    apply IH; auto; intros x Hx; [apply Hle|apply Hnil]; now right.
Qed.

Lemma filter_one_key {A} (key : A -> Z) (k : Z) (p : A -> bool) (l : list A) :
  NoDup (map key l) ->
  (forall x, In x l -> p x = true -> key x = k) ->
  (List.length (filter p l) <= 1)%nat.
Proof.
  induction l as [|y l IH]; intros Hnd Hk; simpl; [lia|].
  simpl in Hnd. inversion Hnd as [|k0 ks Hnotin Hnd']; subst.
  destruct (p y) eqn:Ey.
  - rewrite filter_nil_forall; [simpl; lia|].
    intros x Hx. destruct (p x) eqn:Ex; [|reflexivity]. exfalso. apply Hnotin.
    rewrite (Hk y (or_introl eq_refl) Ey), <- (Hk x (or_intror Hx) Ex).
    now apply in_map.
  - apply IH; auto. intros x Hx. apply Hk. now right.
Qed.

Lemma flat_map_filter_length {A B} (h : A -> list B) (q : A -> bool) (l : list A) :
  (forall x, In x l -> (List.length (h x) <= if q x then 1 else 0)%nat) ->
  (List.length (flat_map h l) <= List.length (filter q l))%nat.
Proof.
  induction l as [|y l IH]; intros H; simpl; [lia|].
  rewrite length_app. specialize (IH (fun x Hx => H x (or_intror Hx))).
  specialize (H y (or_introl eq_refl)). destruct (q y); simpl; lia.
Qed.

Lemma flat_map_length_le {A B C} (f : A -> list B) (g : A -> list C) (l : list A) :
  (forall x, In x l -> (List.length (f x) <= List.length (g x))%nat) ->
  (List.length (flat_map f l) <= List.length (flat_map g l))%nat.
Proof.
  induction l as [|y l IH]; intros H; simpl; [lia|].
  rewrite !length_app. specialize (IH (fun x Hx => H x (or_intror Hx))).
  specialize (H y (or_introl eq_refl)). lia.
Qed.

Lemma insert_desc_length a l : List.length (insert_desc a l) = S (List.length l).
Proof.
  induction l as [|b l IH]; simpl; [reflexivity|].
  destruct (not_before a b); simpl; [reflexivity|]. now rewrite IH.
Qed.

Lemma order_desc_length l : List.length (order_desc l) = List.length l.
Proof.
  induction l as [|a l IH]; simpl; [reflexivity|]. now rewrite insert_desc_length, IH.
Qed.

Lemma matching_counted today conditions db :
  NoDup (map u_id (users db)) -> NoDup (map sp_id (specialties db)) ->
  Z.of_nat (List.length (matching today conditions db)) <= counted today conditions db.
Proof.
  intros Hu Hs. unfold matching, counted. apply inj_le.
  apply flat_map_length_le. intros a _.
  apply (flat_map_one_key u_id (patient_id a)); [exact Hu| |].
  - intros up _. apply flat_map_filter_length. intros d _.
    apply (flat_map_one_key u_id (d_user_id d)); [exact Hu| |].
    + intros ud _. rewrite length_map.
      destruct ((doctor_id a =? d_id d) && forallb (holds today a d) conditions) eqn:Q.
      * apply (filter_one_key sp_id (d_specialty_id d)); [exact Hs|].
        intros s _ H. repeat (apply andb_true_iff in H as (H & ?)). lia.
      * rewrite filter_nil_forall; [simpl; lia|]. intros s _.
        apply andb_false_iff in Q.
        destruct Q as [Q|Q]; rewrite ?Q, ?andb_false_r; try reflexivity.
    + intros ud _ Hne. rewrite filter_nil_forall; [reflexivity|]. intros s _.
      replace (d_user_id d =? u_id ud) with false by lia.
      now rewrite andb_false_r.
  - intros up _ Hne. apply flat_map_nil_forall. intros d _.
    apply flat_map_nil_forall. intros ud _.
    rewrite filter_nil_forall; [reflexivity|]. intros s _.
    replace (patient_id a =? u_id up) with false by lia. reflexivity.
Qed.

(** X23. The count of GET / covers what its pages can show: user and
    specialty ids being keys, totalItems is at least the number of
    appointments the list query matches (it joins fewer tables and may count
    more), and a page beyond totalPages is empty. *)
Theorem listAppointments_count_covers today u query db code data db' :
  listAppointments today u query db = (Json code data, db') ->
  NoDup (map u_id (users db)) -> NoDup (map sp_id (specialties db)) ->
  Z.of_nat (List.length (matching today (whereConditions u query) db))
  <= totalItems (pagination data)
  /\ (totalPages (pagination data) < currentPage (pagination data) ->
      listed data = []).
Proof.
  rewrite list_handler_eq. destruct (validate_list query) eqn:Hv; [discriminate|].
  destruct (whereConditions u query) as [|c0 cs] eqn:Ec; [discriminate|].
  intros H Hu Hs. inversion H; subst code data db'; clear H. simpl.
  pose proof (matching_counted today (c0 :: cs) db Hu Hs) as Hcount.
  split; [exact Hcount|]. intros Hpage.
  destruct (validate_list_bounds query Hv) as (Hp & Hl).
  pose proof (ceil_div_bounds (counted today (c0 :: cs) db) (value_limit query)
                ltac:(lia)) as Hc.
  unfold limit_offset. rewrite skipn_all2; [now rewrite firstn_nil|].
  rewrite order_desc_length. nia.
Qed.

Lemma listAppointments_count_covers_witness :
  listed
    (mkListData []
       (mkPagination 2 10 3 1 false true))
  = []
  /\ fst (listAppointments 19875 alice (mkListQuery None None (Some 2) None) ward)
     = Json 200 (mkListData [] (mkPagination 2 10 3 1 false true)).
Proof.
  split; [|reflexivity].
  apply (listAppointments_count_covers 19875 alice (mkListQuery None None (Some 2) None)
           ward 200 (mkListData [] (mkPagination 2 10 3 1 false true)) ward eq_refl).
  - repeat constructor; simpl; intuition discriminate.
  - repeat constructor. intros [].
  - simpl. lia.
Defined.
